(** * Relayer reconciliation pass: a shallow embedding

    Source files embedded here:
    - [src/modules/transactions.js]: [syncAndPublish], [publishTransaction];
    - the delegate-request collection module: [status], [create],
      [findOneAndUpdate].

    Conventions.
    - JavaScript numbers that the code treats as counters (nonces, gas,
      confirmations, timestamps) are integers far below 2^53, where
      JavaScript arithmetic on them is exact; they are modelled in [Z].
      The one non-integer value the code can produce from them, [NaN]
      (from [undefined + 1]), is kept explicit in [jsnum].
    - The Mongo collection is a list of documents in natural (insertion)
      order.
    - The chain client and the contract handle are external: they are
      operations on an abstract chain state [World]; every call may change
      that state and may raise. *)

From Stdlib Require Import ZArith List String Bool Lia.
Import ListNotations.
Local Open Scope string_scope.
Local Open Scope Z_scope.

(** ** JavaScript values *)

Inductive jsnum : Type :=
| Num (z : Z)
| NaN.

(** [v + 1] for a number [v]. *)
Definition js_succ (v : jsnum) : jsnum :=
  match v with
  | Num z => Num (z + 1)
  | NaN => NaN
  end.

(** [o.f + 1] for an optional numeric property: [undefined + 1] is [NaN]. *)
Definition prop_succ (f : option jsnum) : jsnum :=
  match f with
  | Some v => js_succ v
  | None => NaN
  end.

(** Truthiness of an optional numeric property: [undefined], [0] and [NaN]
    are falsy. *)
Definition truthy (f : option jsnum) : bool :=
  match f with
  | Some (Num z) => negb (z =? 0)
  | Some NaN => false
  | None => false
  end.

(** A receipt field as the chain client delivers it (a big-number object)
    or as a plain number. *)
Inductive numeric : Type :=
| BigNumber (v : Z)
| Number (v : jsnum).

(** Unary [+x]. *)
Definition unary_plus (x : numeric) : numeric :=
  match x with
  | BigNumber v => Number (Num v)
  | Number v => Number v
  end.

Definition is_plain (x : numeric) : bool :=
  match x with
  | Number _ => true
  | BigNumber _ => false
  end.

(** A thrown value: its [code] property and the result of [toString()]. *)
Record JsError : Type := {
  code : option string;
  toString : string
}.

(** The error the runtime raises on a property read from [undefined] or
    [null]. *)
Definition TypeError (what : string) : JsError :=
  {| code := None; toString := ("TypeError: " ++ what)%string |}.

(** ** Documents *)

Record ContractRef : Type := { contract_address : string }.

Record Context : Type := {
  contract : ContractRef;
  context_expiresAt : option Z      (* seconds since the epoch *)
}.

Record TxReceipt : Type := {
  confirmations : Z;
  gasUsed : numeric;
  cumulativeGasUsed : numeric
}.

Record Transaction : Type := { tx_nonce : Z }.

Record Wallet : Type := { address : string }.

Record DelegateRequestDoc : Type := {
  _id : option Z;
  id : string;
  status : Z;
  signer : string;
  context : Context;
  fee : string;
  signatureOptions : string;
  createdAt : Z;                     (* milliseconds since the epoch *)
  expiresAt : Z;
  nonce : option jsnum;
  transactionHash : option string;
  txReceipt : option TxReceipt;
  reason : option string
}.

(** The [status] table of the collection module. *)
Module Status.
Definition new : Z := 0.
Definition confirmed : Z := 1.
Definition mining : Z := 2.
Definition mined : Z := 3.
Definition failed : Z := 4.
End Status.

(** The argument of a [$set] update: the fields it names. *)
Record SetFields : Type := {
  set_status : option Z;
  set_transactionHash : option string;
  set_nonce : option jsnum;
  set_txReceipt : option TxReceipt;
  set_reason : option string
}.

Definition orElse {A : Type} (new : option A) (old : option A) : option A :=
  match new with
  | Some _ => new
  | None => old
  end.

Definition apply_set (u : SetFields) (d : DelegateRequestDoc) : DelegateRequestDoc :=
  {| _id := _id d;
     id := id d;
     status := match set_status u with Some s => s | None => status d end;
     signer := signer d;
     context := context d;
     fee := fee d;
     signatureOptions := signatureOptions d;
     createdAt := createdAt d;
     expiresAt := expiresAt d;
     nonce := orElse (set_nonce u) (nonce d);
     transactionHash := orElse (set_transactionHash u) (transactionHash d);
     txReceipt := orElse (set_txReceipt u) (txReceipt d);
     reason := orElse (set_reason u) (reason d) |}.

(** ** The collection *)

Definition Store : Type := list DelegateRequestDoc.

Definition same_id (a b : option Z) : bool :=
  match a, b with
  | Some x, Some y => x =? y
  | None, None => true
  | _, _ => false
  end.

(** [findOneAndUpdate({ _id: i }, { $set: u })]: the first document with
    that [_id] is updated, the others are untouched. *)
Fixpoint findOneAndUpdate (i : option Z) (u : SetFields) (s : Store) : Store :=
  match s with
  | [] => []
  | d :: rest =>
      if same_id (_id d) i then apply_set u d :: rest
      else d :: findOneAndUpdate i u rest
  end.

(** [findOne({ _id: i })]. *)
Definition findById (i : option Z) (s : Store) : option DelegateRequestDoc :=
  find (fun d => same_id (_id d) i) s.

(** [find({ status: mined }).sort({ $natural: -1 }).limit(1).toArray()[0]] *)
Definition findLastMined (s : Store) : option DelegateRequestDoc :=
  hd_error (rev (filter (fun d => status d =? Status.mined) s)).

Definition id_gt (a b : option Z) : bool :=
  match a, b with
  | Some x, Some y => y <? x
  | _, _ => false
  end.

Definition backlog_status (st : Z) : bool :=
  (st =? Status.confirmed) || (st =? Status.mining) || (st =? Status.mined).

(** The backlog query of step 2, in natural order. *)
Definition findBacklog (lastMinedTx : option DelegateRequestDoc) (s : Store) : list DelegateRequestDoc :=
  filter (fun d =>
            match lastMinedTx with
            | None => true
            | Some m => id_gt (_id d) (_id m)
            end && backlog_status (status d)) s.

(** ** [create] of the collection module *)

Record CreateArgs : Type := {
  arg_id : string;
  arg_context : Context;
  arg_signer : string;
  arg_fee : string;
  arg_signatureOptions : string
}.

Definition fresh_id (s : Store) : Z :=
  1 + fold_right (fun d m => match _id d with Some i => Z.max i m | None => m end) 0 s.

(** The [expiresAt] expression of [create],
    [context.expiresAt ? new Date(context.expiresAt * 1000)
                       : new Date(now.getTime() + defaultExpiresAtSeconds * 1000)]:
    the supplied expiry is tested for truthiness, so [undefined] and [0]
    both select the default. Dates are their millisecond timestamps. *)
Definition create_expiresAt (defaultExpiresAtSeconds now : Z) (c : Context) : Z :=
  match context_expiresAt c with
  | Some e =>
      if truthy (Some (Num e)) then e * 1000
      else now + defaultExpiresAtSeconds * 1000
  | None => now + defaultExpiresAtSeconds * 1000
  end.

(** [create]: inserts the new document at the end of the collection and
    returns it with its [_id] deleted. *)
Definition create (defaultExpiresAtSeconds now : Z) (a : CreateArgs) (s : Store)
  : Store * DelegateRequestDoc :=
  let doc i :=
    {| _id := i;
       id := arg_id a;
       status := Status.new;
       signer := arg_signer a;
       context := arg_context a;
       fee := arg_fee a;
       signatureOptions := arg_signatureOptions a;
       createdAt := now;
       expiresAt := create_expiresAt defaultExpiresAtSeconds now (arg_context a);
       nonce := None;
       transactionHash := None;
       txReceipt := None;
       reason := None |} in
  ((s ++ [doc (Some (fresh_id s))])%list, doc None).

(** ** External collaborators *)

Inductive BlockTag : Type :=
| latest
| pending.

(** The [errorCode] table imported from the chain-client module. *)
Record ErrorCode : Type := {
  INSUFFICIENT_FUNDS : string;
  NONCE_EXPIRED : string;
  REPLACEMENT_UNDERPRICED : string
}.

(** [e.code === c] *)
Definition code_is (e : JsError) (c : string) : bool :=
  match code e with
  | Some s => String.eqb s c
  | None => false
  end.

(** The chain client ([provider], [getWallet], [getContract]) and the
    delegated contract call, over a chain state [World]. Each call returns
    the raised error or the value, and the chain state after it.
    [getTransactionCount] takes the address and the optional block tag of
    the client's interface. [callDelegated c r n] is
    [c.functions[r.delegatedFunctionName](...r.delegatedFunctionArguments.concat({ nonce: n }))]. *)
Record Gateway (World : Type) : Type := {
  getWallet : World -> (JsError + Wallet) * World;
  getTransactionCount : World -> string -> option BlockTag -> (JsError + Z) * World;
  getTransactionReceipt : World -> option string -> (JsError + option TxReceipt) * World;
  getTransaction : World -> option string -> (JsError + option Transaction) * World;
  getContract : World -> string -> (JsError + ContractRef) * World;
  callDelegated : World -> ContractRef -> DelegateRequestDoc -> jsnum -> (JsError + string) * World
}.

Arguments getWallet {World} _ _.
Arguments getTransactionCount {World} _ _ _ _.
Arguments getTransactionReceipt {World} _ _ _.
Arguments getTransaction {World} _ _ _.
Arguments getContract {World} _ _ _.
Arguments callDelegated {World} _ _ _ _ _.

(** ** The monad of a pass: collection and chain state, exceptions, fuel *)

Inductive outcome (A : Type) : Type :=
| Ret (a : A)
| Throw (e : JsError)
| OutOfFuel.

Arguments Ret {A} a.
Arguments Throw {A} e.
Arguments OutOfFuel {A}.

Record PassState (World : Type) : Type := {
  db : Store;
  chain : World
}.

Arguments db {World} _.
Arguments chain {World} _.
Arguments Build_PassState {World} _ _.

Definition Pass (World A : Type) : Type :=
  PassState World -> outcome A * PassState World.

Definition ret {World A : Type} (a : A) : Pass World A :=
  fun s => (Ret a, s).

Definition throw {World A : Type} (e : JsError) : Pass World A :=
  fun s => (Throw e, s).

Definition bind {World A B : Type} (m : Pass World A) (k : A -> Pass World B) : Pass World B :=
  fun s =>
    match m s with
    | (Ret a, s') => k a s'
    | (Throw e, s') => (Throw e, s')
    | (OutOfFuel, s') => (OutOfFuel, s')
    end.

(** [try { m } catch (e) { h e }] *)
Definition try_catch {World A : Type} (m : Pass World A) (h : JsError -> Pass World A) : Pass World A :=
  fun s =>
    match m s with
    | (Throw e, s') => h e s'
    | r => r
    end.

Declare Scope pass_scope.
Delimit Scope pass_scope with pass.
Notation "x <- m ;; k" := (bind m (fun x => k))
  (at level 61, m at next level, right associativity) : pass_scope.
Notation "m ;;; k" := (bind m (fun _ => k))
  (at level 61, right associativity) : pass_scope.

(** An [await] on the chain client. *)
Definition await {World A : Type} (op : World -> (JsError + A) * World) : Pass World A :=
  fun s =>
    match op (chain s) with
    | (inr a, w) => (Ret a, {| db := db s; chain := w |})
    | (inl e, w) => (Throw e, {| db := db s; chain := w |})
    end.

(** A read of the collection. *)
Definition query {World A : Type} (q : Store -> A) : Pass World A :=
  fun s => (Ret (q (db s)), s).

(** [dr.findOneAndUpdate({ _id: i }, { $set: u })] *)
Definition update {World : Type} (i : option Z) (u : SetFields) : Pass World unit :=
  fun s => (Ret tt, {| db := findOneAndUpdate i u (db s); chain := chain s |}).

(** ** [src/modules/transactions.js] *)

(** The [$set] documents the pass writes. *)
Definition set_mined (r : TxReceipt) (n : Z) : SetFields :=
  {| set_status := Some Status.mined;
     set_transactionHash := None;
     set_nonce := Some (Num n);
     set_txReceipt := Some r;
     set_reason := None |}.

Definition set_mining (h : string) (n : jsnum) : SetFields :=
  {| set_status := Some Status.mining;
     set_transactionHash := Some h;
     set_nonce := Some n;
     set_txReceipt := None;
     set_reason := None |}.

Definition set_failed (why : string) : SetFields :=
  {| set_status := Some Status.failed;
     set_transactionHash := None;
     set_nonce := None;
     set_txReceipt := None;
     set_reason := Some why |}.

Definition no_ether : string := "Delegate account has no Ether on its balance".
Definition publish_error : string := "Transaction error when publishing: ".

(** "De-bignumberify": [gasUsed] and [cumulativeGasUsed] become plain
    numbers. *)
Definition debignumberify (r : TxReceipt) : TxReceipt :=
  {| confirmations := confirmations r;
     gasUsed := unary_plus (gasUsed r);
     cumulativeGasUsed := unary_plus (cumulativeGasUsed r) |}.

(** The message of the TypeError for [const { nonce } = null], as the
    engine of the code's time words it (V8 7, Node 12). *)
Definition destructure_null : string :=
  "Cannot destructure property `nonce` of 'undefined' or 'null'.".

(** [d[0]] for a document [d]: a document has its named fields and no
    property [0], so the read gives [undefined]. *)
Definition index0 (d : DelegateRequestDoc) : option DelegateRequestDoc := None.

(** [v + k], by [k] increments. *)
Fixpoint js_add (v : jsnum) (k : nat) : jsnum :=
  match k with
  | O => v
  | S k' => js_add (js_succ v) k'
  end.

Section Transactions.

Context {World : Type}.
Variable G : Gateway World.
Variable errorCode : ErrorCode.
Variable requiredConfirmations : Z.

Local Open Scope pass_scope.

(** The condition of the retry in [publishTransaction]. *)
Definition nonce_conflict (e : JsError) : bool :=
  code_is e (NONCE_EXPIRED errorCode) || code_is e (REPLACEMENT_UNDERPRICED errorCode).

(** The [while (true)] loop of [publishTransaction]; [fuel] bounds the
    number of attempts. *)
Fixpoint publish_loop (fuel : nat) (c : ContractRef) (confirmedRequest : DelegateRequestDoc)
         (nonce : jsnum) : Pass World (string * jsnum) :=
  match fuel with
  | O => fun s => (OutOfFuel, s)
  | S fuel' =>
      try_catch
        (transactionHash <- await (fun w => callDelegated G w c confirmedRequest nonce) ;;
         ret (transactionHash, nonce))
        (fun e =>
           if nonce_conflict e
           then publish_loop fuel' c confirmedRequest (js_succ nonce)
           else throw e)
  end.

Definition publishTransaction (fuel : nat) (confirmedRequest : DelegateRequestDoc)
           (nonce : jsnum) : Pass World (string * jsnum) :=
  c <- await (fun w => getContract G w (contract_address (contract (context confirmedRequest)))) ;;
  publish_loop fuel c confirmedRequest nonce.

(** [retries c r k w n w' n']: starting on chain state [w] with candidate
    [n], [k] submissions in a row are refused with a nonce conflict,
    leaving chain state [w'] and candidate [n']. *)
Inductive retries (c : ContractRef) (r : DelegateRequestDoc)
  : nat -> World -> jsnum -> World -> jsnum -> Prop :=
| retries_done w n : retries c r O w n w n
| retries_again k w n e w1 w' n' :
    callDelegated G w c r n = (inl e, w1) ->
    nonce_conflict e = true ->
    retries c r k w1 (js_succ n) w' n' ->
    retries c r (S k) w n w' n'.

(** Step 1 of [syncAndPublish]: the last mined request and the starting
    value of [nextNonce]. *)
Definition startingNonce : Pass World (option DelegateRequestDoc * jsnum) :=
  delegateWallet <- await (getWallet G) ;;
  lastMinedTx <- query findLastMined ;;
  match lastMinedTx with
  | None =>
      n <- await (fun w => getTransactionCount G w (address delegateWallet) None) ;;
      ret (lastMinedTx, Num n)
  | Some m =>
      match index0 m with
      | None => throw (TypeError "Cannot read property 'nonce' of undefined")
      | Some first => ret (lastMinedTx, prop_succ (nonce first))
      end
  end.

(** The reason recorded by the [catch] of step 3.3. *)
Definition failure_reason (e : JsError) : string :=
  if code_is e (INSUFFICIENT_FUNDS errorCode) then no_ether
  else (publish_error ++ toString e)%string.

(** The body of the [for] loop of step 3: one request, the value of
    [nextNonce] before it; returns the value of [nextNonce] after it. *)
Definition processRequest (fuel : nat) (request : DelegateRequestDoc) (nextNonce : jsnum)
  : Pass World jsnum :=
  if status request =? Status.mined then
    ret (prop_succ (nonce request))
  else if status request =? Status.mining then
    txReceipt <- await (fun w => getTransactionReceipt G w (transactionHash request)) ;;
    match txReceipt with
    | Some r =>
        if confirmations r <? requiredConfirmations then
          ret (if truthy (nonce request) then prop_succ (nonce request) else js_succ nextNonce)
        else
          tx <- await (fun w => getTransaction G w (transactionHash request)) ;;
          match tx with
          | None => throw (TypeError destructure_null)
          | Some t =>
              update (_id request) (set_mined (debignumberify r) (tx_nonce t)) ;;;
              ret (Num (tx_nonce t + 1))
          end
    | None => ret (js_succ nextNonce)
    end
  else if status request =? Status.confirmed then
    try_catch
      (published <- publishTransaction fuel request nextNonce ;;
       update (_id request) (set_mining (fst published) (snd published)) ;;;
       ret (js_succ (snd published)))
      (fun e =>
         update (_id request) (set_failed (failure_reason e)) ;;;
         ret nextNonce)
  else
    ret nextNonce.

(** The [for] loop of step 3 over the fetched queue. *)
Fixpoint processQueue (fuel : nat) (requestQueue : list DelegateRequestDoc) (nextNonce : jsnum)
  : Pass World jsnum :=
  match requestQueue with
  | [] => ret nextNonce
  | request :: rest =>
      n <- processRequest fuel request nextNonce ;;
      processQueue fuel rest n
  end.

Definition syncAndPublish (fuel : nat) : Pass World unit :=
  start <- startingNonce ;;
  requestQueue <- query (findBacklog (fst start)) ;;
  processQueue fuel requestQueue (snd start) ;;;
  ret tt.

End Transactions.

(** ** A small executable chain, for running the pass on concrete inputs *)

Module Sim.

(** The relayer account: transaction counts at the latest block and
    including the pool, the nonces already taken, whether the account is
    funded, and the receipts and transactions known by hash. *)
Record World : Type := {
  count_latest : Z;
  count_pending : Z;
  taken : list Z;
  funded : bool;
  receipts : list (string * TxReceipt);
  transactions : list (string * Transaction)
}.

Definition codes : ErrorCode :=
  {| INSUFFICIENT_FUNDS := "INSUFFICIENT_FUNDS";
     NONCE_EXPIRED := "NONCE_EXPIRED";
     REPLACEMENT_UNDERPRICED := "REPLACEMENT_UNDERPRICED" |}.

Definition error (c msg : string) : JsError :=
  {| code := Some c; toString := ("Error: " ++ msg)%string |}.

Fixpoint lookup {A : Type} (h : string) (l : list (string * A)) : option A :=
  match l with
  | [] => None
  | (k, v) :: rest => if String.eqb k h then Some v else lookup h rest
  end.

Definition by_hash {A : Type} (h : option string) (l : list (string * A)) : option A :=
  match h with
  | Some k => lookup k l
  | None => None
  end.

Definition take (n : Z) (w : World) : World :=
  {| count_latest := count_latest w;
     count_pending := count_pending w + 1;
     taken := n :: taken w;
     funded := funded w;
     receipts := receipts w;
     transactions := transactions w |}.

Definition send (w : World) (c : ContractRef) (r : DelegateRequestDoc) (n : jsnum)
  : (JsError + string) * World :=
  match n with
  | NaN => (inl (error "INVALID_ARGUMENT" "invalid nonce"), w)
  | Num z =>
      if negb (funded w) then (inl (error "INSUFFICIENT_FUNDS" "insufficient funds"), w)
      else if existsb (Z.eqb z) (taken w) then (inl (error "NONCE_EXPIRED" "nonce has already been used"), w)
      else (inr ("0x" ++ id r)%string, take z w)
  end.

(** The client of the simulated chain. As in the chain client the code
    uses, a transaction count asked without a block tag is the count at the
    latest block; the pool is counted only under the tag [pending]. *)
Definition gateway : Gateway World :=
  {| getWallet := fun w => (inr {| address := "0xrelayer" |}, w);
     getTransactionCount := fun w _ tag =>
       (inr match tag with
            | Some pending => count_pending w
            | Some latest => count_latest w
            | None => count_latest w
            end, w);
     getTransactionReceipt := fun w h => (inr (by_hash h (receipts w)), w);
     getTransaction := fun w h => (inr (by_hash h (transactions w)), w);
     getContract := fun w a => (inr {| contract_address := a |}, w);
     callDelegated := send |}.

Definition request (i : Z) (name : string) (st : Z) (n : option jsnum) (h : option string)
  : DelegateRequestDoc :=
  {| _id := Some i;
     id := name;
     status := st;
     signer := "0xsigner";
     context := {| contract := {| contract_address := "0xtoken" |};
                   context_expiresAt := None |};
     fee := "0";
     signatureOptions := "";
     createdAt := 0;
     expiresAt := 0;
     nonce := n;
     transactionHash := h;
     txReceipt := None;
     reason := None |}.

Definition receipt (c : Z) : TxReceipt :=
  {| confirmations := c; gasUsed := BigNumber 21000; cumulativeGasUsed := BigNumber 63000 |}.

(** A funded relayer with [n] transactions mined, [p] more in the pool,
    and the given nonces taken. *)
Definition world (n p : Z) (used : list Z) (rs : list (string * TxReceipt))
           (ts : list (string * Transaction)) : World :=
  {| count_latest := n;
     count_pending := n + p;
     taken := used;
     funded := true;
     receipts := rs;
     transactions := ts |}.

Definition broke (w : World) : World :=
  {| count_latest := count_latest w;
     count_pending := count_pending w;
     taken := taken w;
     funded := false;
     receipts := receipts w;
     transactions := transactions w |}.

(** Requests and collections used as concrete inputs. *)
Definition confirmed1 : DelegateRequestDoc := request 1 "r1" Status.confirmed None None.
Definition confirmed2 : DelegateRequestDoc := request 2 "r2" Status.confirmed None None.

(** Nonce 10 is taken on the chain; two confirmed requests wait. *)
Definition s_conflict : PassState World :=
  {| db := [confirmed1; confirmed2]; chain := world 10 1 [10] [] [] |}.

(** The relayer has no balance; two confirmed requests wait. *)
Definition s_broke : PassState World :=
  {| db := [confirmed1; confirmed2]; chain := broke (world 10 0 [] [] []) |}.

(** The first transaction of the relayer (nonce 0, hash [0xa]) has a
    receipt with [c] confirmations. *)
Definition mining0 : DelegateRequestDoc := request 1 "r1" Status.mining (Some (Num 0)) (Some "0xa").

Definition s_mining (c : Z) : PassState World :=
  {| db := [mining0];
     chain := world 1 0 [0] [("0xa", receipt c)] [("0xa", {| tx_nonce := 0 |})] |}.

(** A request in mining state with nonce 7 recorded, and a transaction
    whose nonce on the chain is 8. *)
Definition mining7 : DelegateRequestDoc := request 1 "r1" Status.mining (Some (Num 7)) (Some "0xb").

Definition s_mining7 (c : Z) : PassState World :=
  {| db := [mining7];
     chain := world 9 0 [] [("0xb", receipt c)] [("0xb", {| tx_nonce := 8 |})] |}.

(** A chain that refuses every submission as underpriced. *)
Definition jammed : Gateway World :=
  {| getWallet := getWallet gateway;
     getTransactionCount := getTransactionCount gateway;
     getTransactionReceipt := getTransactionReceipt gateway;
     getTransaction := getTransaction gateway;
     getContract := getContract gateway;
     callDelegated := fun w _ _ _ =>
       (inl (error "REPLACEMENT_UNDERPRICED" "replacement fee too low"), w) |}.

(** The same reads as [gateway], but no contract can be loaded and no call
    goes through. *)
Definition no_submit : Gateway World :=
  {| getWallet := getWallet gateway;
     getTransactionCount := getTransactionCount gateway;
     getTransactionReceipt := getTransactionReceipt gateway;
     getTransaction := getTransaction gateway;
     getContract := fun w _ => (inl (error "UNSUPPORTED_OPERATION" "no signer"), w);
     callDelegated := fun w _ _ _ => (inl (error "UNSUPPORTED_OPERATION" "no signer"), w) |}.

(** A client whose receipt lookups fail. *)
Definition offline : Gateway World :=
  {| getWallet := getWallet gateway;
     getTransactionCount := getTransactionCount gateway;
     getTransactionReceipt := fun w _ => (inl (error "SERVER_ERROR" "bad response"), w);
     getTransaction := getTransaction gateway;
     getContract := getContract gateway;
     callDelegated := send |}.

(** The receipt of [0xb] has 5 confirmations but the transaction itself is
    not found. *)
Definition s_no_tx : PassState World :=
  {| db := [mining7; confirmed2]; chain := world 9 0 [] [("0xb", receipt 5)] [] |}.

(** Two requests in mining state, no receipt yet for either. *)
Definition mining8 : DelegateRequestDoc := request 2 "r2" Status.mining (Some (Num 8)) (Some "0xc").

Definition s_waiting : PassState World :=
  {| db := [mining7; mining8]; chain := world 7 2 [7; 8] [] [] |}.

(** A failed and a new request around a confirmed one. *)
Definition failed1 : DelegateRequestDoc := request 1 "r1" Status.failed None None.
Definition new3 : DelegateRequestDoc := request 3 "r3" Status.new None None.

Definition s_mixed : PassState World :=
  {| db := [failed1; confirmed2; new3]; chain := world 10 0 [] [] [] |}.

Definition create_args : CreateArgs :=
  {| arg_id := "r9";
     arg_context := {| contract := {| contract_address := "0xtoken" |};
                       context_expiresAt := None |};
     arg_signer := "0xsigner";
     arg_fee := "0";
     arg_signatureOptions := "" |}.

End Sim.

(** * Properties *)

(** ** Equations of the monad *)

Lemma bind_ret {World A B : Type} (a : A) (k : A -> Pass World B) (s : PassState World) :
  bind (ret a) k s = k a s.
Proof. reflexivity. Qed.

Lemma bind_Ret {World A B : Type} (m : Pass World A) (k : A -> Pass World B)
      (s s' : PassState World) (a : A) :
  m s = (Ret a, s') -> bind m k s = k a s'.
Proof. intros H. unfold bind. now rewrite H. Qed.

Lemma bind_Throw {World A B : Type} (m : Pass World A) (k : A -> Pass World B)
      (s s' : PassState World) (e : JsError) :
  m s = (Throw e, s') -> bind m k s = (Throw e, s').
Proof. intros H. unfold bind. now rewrite H. Qed.

Lemma await_inr {World A : Type} (op : World -> (JsError + A) * World)
      (s : PassState World) (a : A) (w : World) :
  op (chain s) = (inr a, w) -> await op s = (Ret a, {| db := db s; chain := w |}).
Proof. intros H. unfold await. now rewrite H. Qed.

Lemma await_inl {World A : Type} (op : World -> (JsError + A) * World)
      (s : PassState World) (e : JsError) (w : World) :
  op (chain s) = (inl e, w) -> await op s = (Throw e, {| db := db s; chain := w |}).
Proof. intros H. unfold await. now rewrite H. Qed.

Lemma await_db {World A : Type} (op : World -> (JsError + A) * World) (s : PassState World) :
  db (snd (await op s)) = db s.
Proof. unfold await. destruct (op (chain s)) as [[e | a] w]; reflexivity. Qed.

(** ** Step 1: the starting nonce *)

Section StartingNonce.

Context {World : Type}.
Variable G : Gateway World.

(** With a mined request in the collection, step 1 reads [lastMinedTx[0]],
    which is [undefined], and raises before any nonce is chosen. *)
Lemma startingNonce_mined (s : PassState World) (wallet : Wallet) (w : World)
      (m : DelegateRequestDoc) :
  getWallet G (chain s) = (inr wallet, w) ->
  findLastMined (db s) = Some m ->
  startingNonce G s =
    (Throw (TypeError "Cannot read property 'nonce' of undefined"),
     {| db := db s; chain := w |}).
Proof.
  intros Hw Hm. unfold startingNonce.
  rewrite (bind_Ret _ _ _ _ _ (await_inr _ _ _ _ Hw)).
  unfold query, bind; cbn. now rewrite Hm.
Qed.

Lemma startingNonce_none (s : PassState World) (wallet : Wallet) (w w' : World) (n : Z) :
  getWallet G (chain s) = (inr wallet, w) ->
  findLastMined (db s) = None ->
  getTransactionCount G w (address wallet) None = (inr n, w') ->
  startingNonce G s = (Ret (None, Num n), {| db := db s; chain := w' |}).
Proof.
  intros Hw Hm Hn. unfold startingNonce.
  rewrite (bind_Ret _ _ _ _ _ (await_inr _ _ _ _ Hw)).
  unfold query, bind at 1; cbn. rewrite Hm.
  unfold bind, await; cbn. now rewrite Hn.
Qed.

End StartingNonce.

(** C1. The claim says that with a mined request in the collection the pass
    starts from the nonce of the most recent mined request plus one. The
    code does not get that far: for every collection that holds a mined
    request (and a wallet that loads), step 1 raises a TypeError on
    [lastMinedTx[0].nonce], and so does the whole pass, whatever the
    recorded nonce is. *)
Theorem C1_resume_raises {World : Type} (G : Gateway World) (ec : ErrorCode) (rc : Z)
        (fuel : nat) (s : PassState World) (wallet : Wallet) (w : World)
        (m : DelegateRequestDoc) :
  getWallet G (chain s) = (inr wallet, w) ->
  findLastMined (db s) = Some m ->
  fst (startingNonce G s) = Throw (TypeError "Cannot read property 'nonce' of undefined")
  /\ fst (syncAndPublish G ec rc fuel s) =
       Throw (TypeError "Cannot read property 'nonce' of undefined")
  /\ db (snd (syncAndPublish G ec rc fuel s)) = db s.
Proof.
  intros Hw Hm.
  pose proof (startingNonce_mined G s wallet w m Hw Hm) as E.
  unfold syncAndPublish.
  rewrite (bind_Throw _ _ _ _ _ E), E. cbn. auto.
Qed.

(** The failing input of C1: one mined request with nonce 5. The claim
    promises a starting nonce of 6. *)
Lemma C1_resume_raises_witness :
  let s := {| db := [Sim.request 1 "r1" Status.mined (Some (Num 5)) (Some "0xa")];
              chain := Sim.world 6 0 [] [] [] |} in
  findLastMined (db s) = Some (Sim.request 1 "r1" Status.mined (Some (Num 5)) (Some "0xa"))
  /\ fst (syncAndPublish Sim.gateway Sim.codes 3 10 s) =
       Throw (TypeError "Cannot read property 'nonce' of undefined").
Proof.
  intros s. split; [reflexivity |].
  apply (C1_resume_raises Sim.gateway Sim.codes 3 10 s
           {| address := "0xrelayer" |} (chain s)
           (Sim.request 1 "r1" Status.mined (Some (Num 5)) (Some "0xa"))); reflexivity.
Defined.

(** C6, as the code has it. With no mined request in the collection, the
    starting nonce is the transaction count the chain client reports for
    the relayer wallet's address when asked without a block tag (the
    client's default block), and the collection is not touched. *)
Theorem C6_bootstrap_default_block {World : Type} (G : Gateway World)
        (s : PassState World) (wallet : Wallet) (w w' : World) (n : Z) :
  getWallet G (chain s) = (inr wallet, w) ->
  findLastMined (db s) = None ->
  getTransactionCount G w (address wallet) None = (inr n, w') ->
  startingNonce G s = (Ret (None, Num n), {| db := db s; chain := w' |}).
Proof. exact (startingNonce_none G s wallet w w' n). Qed.

Lemma C6_bootstrap_default_block_witness :
  let s := {| db := [Sim.request 1 "r1" Status.confirmed None None];
              chain := Sim.world 5 2 [5; 6] [] [] |} in
  fst (startingNonce Sim.gateway s) = Ret (None, Num 5).
Proof.
  intros s.
  rewrite (C6_bootstrap_default_block Sim.gateway s {| address := "0xrelayer" |}
             (chain s) (chain s) 5); reflexivity.
Defined.

(** C6 as stated fails: a relayer with 5 mined transactions and 2 more in
    the pool has a pending transaction count of 7, and no request is mined
    in the collection, yet the pass starts from 5. *)
Lemma C6_pending_count_counterexample :
  let s := {| db := [Sim.request 1 "r1" Status.confirmed None None];
              chain := Sim.world 5 2 [5; 6] [] [] |} in
  findLastMined (db s) = None
  /\ fst (getTransactionCount Sim.gateway (chain s) "0xrelayer" (Some pending)) = inr 7
  /\ fst (startingNonce Sim.gateway s) = Ret (None, Num 5)
  /\ fst (startingNonce Sim.gateway s) <> Ret (None, Num 7).
Proof.
  intros s. repeat split; try reflexivity. cbn. discriminate.
Qed.

(** ** [create]: the expiry *)

(** C8, as the code has it. A created request expires at the supplied
    expiry (seconds, stored as a date) when the context supplies one other
    than 0, and otherwise (none supplied, or 0) at the creation time plus
    the configured default window; the document returned and the document
    stored agree on it, and both carry the creation time. *)
Theorem C8_expiry_default (dflt now : Z) (a : CreateArgs) (s : Store) :
  let expected :=
    match context_expiresAt (arg_context a) with
    | Some e => if e =? 0 then now + dflt * 1000 else e * 1000
    | None => now + dflt * 1000
    end in
  expiresAt (snd (create dflt now a s)) = expected
  /\ createdAt (snd (create dflt now a s)) = now
  /\ option_map expiresAt (nth_error (fst (create dflt now a s)) (List.length s)) = Some expected.
Proof.
  cbn. unfold create_expiresAt.
  rewrite nth_error_app2 by lia. rewrite Nat.sub_diag. cbn.
  destruct (context_expiresAt (arg_context a)) as [e |]; cbn; [| auto].
  destruct (e =? 0); cbn; auto.
Qed.

(** C8 as stated fails at a supplied expiry of 0: the request created at
    time 1000 with a default window of 60 seconds expires at 61000, not at
    the supplied instant. *)
Lemma C8_expiry_zero_counterexample :
  let a := {| arg_id := "r1";
              arg_context := {| contract := {| contract_address := "0xtoken" |};
                                context_expiresAt := Some 0 |};
              arg_signer := "0xsigner";
              arg_fee := "0";
              arg_signatureOptions := "" |} in
  context_expiresAt (arg_context a) = Some 0
  /\ expiresAt (snd (create 60 1000 a [])) = 61000
  /\ expiresAt (snd (create 60 1000 a [])) <> 0 * 1000.
Proof.
  intros a. repeat split. cbn. discriminate.
Qed.

(** ** [publishTransaction] *)

Section Publisher.

Context {World : Type}.
Variable G : Gateway World.
Variable errorCode : ErrorCode.

Local Abbreviation publish_loop := (publish_loop G errorCode).
Local Abbreviation publishTransaction := (publishTransaction G errorCode).
Local Abbreviation nonce_conflict := (nonce_conflict errorCode).
Local Abbreviation retries := (retries G errorCode).

(** One turn of the loop, by the result of the submission. *)
Lemma publish_loop_success fuel c r n (s : PassState World) h w :
  callDelegated G (chain s) c r n = (inr h, w) ->
  publish_loop (S fuel) c r n s = (Ret (h, n), {| db := db s; chain := w |}).
Proof.
  intros H. cbn. unfold try_catch, bind, await. now rewrite H.
Qed.

Lemma publish_loop_conflict fuel c r n (s : PassState World) e w :
  callDelegated G (chain s) c r n = (inl e, w) ->
  nonce_conflict e = true ->
  publish_loop (S fuel) c r n s =
    publish_loop fuel c r (js_succ n) {| db := db s; chain := w |}.
Proof.
  intros H Hc. cbn. unfold try_catch, bind, await. rewrite H. cbn. now rewrite Hc.
Qed.

Lemma publish_loop_other fuel c r n (s : PassState World) e w :
  callDelegated G (chain s) c r n = (inl e, w) ->
  nonce_conflict e = false ->
  publish_loop (S fuel) c r n s = (Throw e, {| db := db s; chain := w |}).
Proof.
  intros H Hc. cbn. unfold try_catch, bind, await. rewrite H. cbn. now rewrite Hc.
Qed.

Lemma js_add_Num z k : js_add (Num z) k = Num (z + Z.of_nat k).
Proof.
  revert z. induction k as [| k IH]; intros z; cbn [js_add js_succ].
  - f_equal. lia.
  - rewrite IH. f_equal. lia.
Qed.

Lemma retries_candidate c r k w n w' n' :
  retries c r k w n w' n' -> n' = js_add n k.
Proof. induction 1; cbn; auto. Qed.

Lemma publish_loop_retries c r k w n w' n' :
  retries c r k w n w' n' ->
  forall fuel store,
    publish_loop (k + fuel) c r n {| db := store; chain := w |} =
    publish_loop fuel c r n' {| db := store; chain := w' |}.
Proof.
  induction 1 as [| k w n e w1 w' n' Hcall Hc _ IH]; intros fuel store.
  - reflexivity.
  - cbn [Nat.add].
    rewrite (publish_loop_conflict _ c r n {| db := store; chain := w |} e w1 Hcall Hc).
    apply IH.
Qed.

(** The loop leaves the collection alone. *)
Lemma publish_loop_db fuel c r n (s : PassState World) :
  db (snd (publish_loop fuel c r n s)) = db s.
Proof.
  revert n s. induction fuel as [| fuel IH]; intros n s; [reflexivity |].
  cbn. unfold try_catch, bind, await.
  destruct (callDelegated G (chain s) c r n) as [[e | h] w]; cbn; [| reflexivity].
  destruct (nonce_conflict e); [| reflexivity].
  now rewrite IH.
Qed.

Lemma publishTransaction_db fuel r n (s : PassState World) :
  db (snd (publishTransaction fuel r n s)) = db s.
Proof.
  unfold publishTransaction, bind, await.
  destruct (getContract G (chain s) _) as [[e | c] w]; cbn; [reflexivity |].
  now rewrite publish_loop_db.
Qed.

(** A result of the loop was reached after some number of increments of
    the candidate, fewer than the fuel. *)
Lemma publish_loop_Ret fuel c r n (s s' : PassState World) h m :
  publish_loop fuel c r n s = (Ret (h, m), s') ->
  exists k : nat, (k < fuel)%nat /\ m = js_add n k.
Proof.
  revert n s. induction fuel as [| fuel IH]; intros n s; [discriminate |].
  cbn. unfold try_catch, bind, await.
  destruct (callDelegated G (chain s) c r n) as [[e | h0] w]; cbn.
  - destruct (nonce_conflict e); [| discriminate].
    intros H. destruct (IH _ _ H) as (k & Hk & ->).
    exists (S k). split; [lia | reflexivity].
  - intros H. injection H as <- <- <-. exists O. split; [lia | reflexivity].
Qed.

End Publisher.


(** ** Step 3.3: a confirmed request *)

Section Confirmed.

Context {World : Type}.
Variable G : Gateway World.
Variable errorCode : ErrorCode.
Variable requiredConfirmations : Z.

Local Abbreviation step := (processRequest G errorCode requiredConfirmations).
Local Abbreviation walk := (processQueue G errorCode requiredConfirmations).
Local Abbreviation publish := (publishTransaction G errorCode).

Lemma processRequest_confirmed fuel request nextNonce (s : PassState World) :
  status request = Status.confirmed ->
  step fuel request nextNonce s =
    match publish fuel request nextNonce s with
    | (Ret (h, n), s1) =>
        (Ret (js_succ n),
         {| db := findOneAndUpdate (_id request) (set_mining h n) (db s1); chain := chain s1 |})
    | (Throw e, s1) =>
        (Ret nextNonce,
         {| db := findOneAndUpdate (_id request) (set_failed (failure_reason errorCode e)) (db s1);
            chain := chain s1 |})
    | (OutOfFuel, s1) => (OutOfFuel, s1)
    end.
Proof.
  intros Hst. unfold processRequest. rewrite Hst. cbn [Z.eqb Status.confirmed Status.mined Status.mining Pos.eqb].
  unfold try_catch, bind at 1.
  destruct (publish fuel request nextNonce s) as [[[h n] | e |] s1];
    reflexivity.
Qed.

(** The step of a confirmed request whose publication raises. *)
Lemma processRequest_publish_raises fuel request nextNonce (s s1 : PassState World) e :
  status request = Status.confirmed ->
  publish fuel request nextNonce s = (Throw e, s1) ->
  step fuel request nextNonce s =
    (Ret nextNonce,
     {| db := findOneAndUpdate (_id request) (set_failed (failure_reason errorCode e)) (db s);
        chain := chain s1 |}).
Proof.
  intros Hst Hp. rewrite (processRequest_confirmed _ _ _ _ Hst), Hp.
  pose proof (publishTransaction_db G errorCode fuel request nextNonce s) as Hdb.
  rewrite Hp in Hdb. cbn in Hdb. now rewrite Hdb.
Qed.

(** The step of a confirmed request whose publication succeeds. *)
Lemma processRequest_publish_returns fuel request nextNonce (s s1 : PassState World) h n :
  status request = Status.confirmed ->
  publish fuel request nextNonce s = (Ret (h, n), s1) ->
  step fuel request nextNonce s =
    (Ret (js_succ n),
     {| db := findOneAndUpdate (_id request) (set_mining h n) (db s); chain := chain s1 |}).
Proof.
  intros Hst Hp. rewrite (processRequest_confirmed _ _ _ _ Hst), Hp.
  pose proof (publishTransaction_db G errorCode fuel request nextNonce s) as Hdb.
  rewrite Hp in Hdb. cbn in Hdb. now rewrite Hdb.
Qed.

(** [publishTransaction] after [k] conflicts in a row, by the result of the
    next submission. *)
Lemma publishTransaction_after_retries fuel request nextNonce (s : PassState World)
      c w0 k w1 n1 res w2 :
  getContract G (chain s) (contract_address (contract (context request))) = (inr c, w0) ->
  retries G errorCode c request k w0 nextNonce w1 n1 ->
  callDelegated G w1 c request n1 = (res, w2) ->
  (forall e, res = inl e -> nonce_conflict errorCode e = false) ->
  (k < fuel)%nat ->
  publish fuel request nextNonce s =
    (match res with inr h => Ret (h, n1) | inl e => Throw e end,
     {| db := db s; chain := w2 |}).
Proof.
  intros Hc Hr Hcall Hres Hk. unfold publishTransaction.
  rewrite (bind_Ret _ _ _ _ _ (await_inr _ _ _ _ Hc)).
  replace fuel with (k + S (fuel - S k))%nat by lia.
  rewrite (publish_loop_retries G errorCode c request k w0 nextNonce w1 n1 Hr).
  destruct res as [e | h].
  - apply (publish_loop_other G errorCode _ c request n1 {| db := db s; chain := w1 |} e w2 Hcall).
    now apply Hres.
  - apply (publish_loop_success G errorCode _ c request n1 {| db := db s; chain := w1 |} h w2 Hcall).
Qed.

End Confirmed.

(** ** The collection under [findOneAndUpdate] *)

Lemma findOneAndUpdate_nonce i u (s : Store) :
  set_nonce u = None ->
  map nonce (findOneAndUpdate i u s) = map nonce s.
Proof.
  intros Hu. induction s as [| d rest IH]; [reflexivity |].
  cbn. destruct (same_id (_id d) i); cbn.
  - now rewrite Hu.
  - now rewrite IH.
Qed.

Lemma findOneAndUpdate_transactionHash i u (s : Store) :
  set_transactionHash u = None ->
  map transactionHash (findOneAndUpdate i u s) = map transactionHash s.
Proof.
  intros Hu. induction s as [| d rest IH]; [reflexivity |].
  cbn. destruct (same_id (_id d) i); cbn.
  - now rewrite Hu.
  - now rewrite IH.
Qed.

Lemma findById_findOneAndUpdate i u (s : Store) :
  findById i (findOneAndUpdate i u s) = option_map (apply_set u) (findById i s).
Proof.
  unfold findById. induction s as [| d rest IH]; [reflexivity |].
  cbn. destruct (same_id (_id d) i) eqn:E; cbn.
  - now rewrite E.
  - now rewrite E, IH.
Qed.

Lemma code_is_true e c : code_is e c = true <-> code e = Some c.
Proof.
  unfold code_is. destruct (code e) as [x |].
  - rewrite String.eqb_eq. split; congruence.
  - split; discriminate.
Qed.

Lemma no_ether_not_generic x : no_ether <> (publish_error ++ x)%string.
Proof. cbn. discriminate. Qed.

(** ** Claims on confirmed requests *)

(** C3. Failure isolation: when the publication of a confirmed request
    raises, the step returns with the nonce cursor it was given, and the
    loop goes on with the following requests from that same cursor. *)
Theorem C3_failure_isolation {World : Type} (G : Gateway World) (ec : ErrorCode) (rc : Z)
        (fuel : nat) (request : DelegateRequestDoc) (rest : list DelegateRequestDoc)
        (cursor : jsnum) (s s1 : PassState World) (e : JsError) :
  status request = Status.confirmed ->
  publishTransaction G ec fuel request cursor s = (Throw e, s1) ->
  exists s' : PassState World,
    processRequest G ec rc fuel request cursor s = (Ret cursor, s')
    /\ processQueue G ec rc fuel (request :: rest) cursor s =
       processQueue G ec rc fuel rest cursor s'.
Proof.
  intros Hst Hp.
  pose proof (processRequest_publish_raises G ec rc fuel request cursor s s1 e Hst Hp) as E.
  eexists. split; [exact E |].
  cbn [processQueue]. now rewrite (bind_Ret _ _ _ _ _ E).
Qed.

(** The relayer has no balance: the first confirmed request fails, the
    cursor stays at 10 and the second request is processed from 10. *)
Lemma C3_failure_isolation_witness :
  exists s',
    processRequest Sim.gateway Sim.codes 3 5 Sim.confirmed1 (Num 10) Sim.s_broke = (Ret (Num 10), s')
    /\ processQueue Sim.gateway Sim.codes 3 5 [Sim.confirmed1; Sim.confirmed2] (Num 10) Sim.s_broke =
       processQueue Sim.gateway Sim.codes 3 5 [Sim.confirmed2] (Num 10) s'.
Proof.
  apply (C3_failure_isolation Sim.gateway Sim.codes 3 5 Sim.confirmed1 [Sim.confirmed2]
           (Num 10) Sim.s_broke Sim.s_broke
           (Sim.error "INSUFFICIENT_FUNDS" "insufficient funds")); reflexivity.
Defined.

(** C7. Failure reason: when the publication of a confirmed request raises
    [e], the update written for the request sets the status to failed and a
    reason; the reason is the balance-shortage message exactly when
    [e.code] is the insufficient-funds code, and otherwise it is the generic
    prefix followed by [e.toString()]. The request's document, looked up in
    the collection after the step, is failed and carries that reason. *)
Theorem C7_failure_reason {World : Type} (G : Gateway World) (ec : ErrorCode) (rc : Z)
        (fuel : nat) (request : DelegateRequestDoc) (cursor : jsnum)
        (s s1 : PassState World) (e : JsError) :
  status request = Status.confirmed ->
  publishTransaction G ec fuel request cursor s = (Throw e, s1) ->
  let after := db (snd (processRequest G ec rc fuel request cursor s)) in
  exists why : string,
    after =
      findOneAndUpdate (_id request)
        {| set_status := Some Status.failed;
           set_transactionHash := None;
           set_nonce := None;
           set_txReceipt := None;
           set_reason := Some why |} (db s)
    /\ (why = "Delegate account has no Ether on its balance"
        <-> code e = Some (INSUFFICIENT_FUNDS ec))
    /\ (code e <> Some (INSUFFICIENT_FUNDS ec) ->
        why = ("Transaction error when publishing: " ++ toString e)%string)
    /\ (forall d : DelegateRequestDoc,
          findById (_id request) (db s) = Some d ->
          exists d' : DelegateRequestDoc,
            findById (_id request) after = Some d'
            /\ status d' = Status.failed
            /\ reason d' = Some why).
Proof.
  intros Hst Hp after. subst after.
  rewrite (processRequest_publish_raises G ec rc fuel request cursor s s1 e Hst Hp).
  cbn [snd db].
  exists (failure_reason ec e). split; [reflexivity |].
  assert (forall d : DelegateRequestDoc,
             findById (_id request) (db s) = Some d ->
             exists d' : DelegateRequestDoc,
               findById (_id request)
                 (findOneAndUpdate (_id request) (set_failed (failure_reason ec e)) (db s))
               = Some d'
               /\ status d' = Status.failed
               /\ reason d' = Some (failure_reason ec e)) as Hdoc.
  { intros d Hd. rewrite findById_findOneAndUpdate, Hd. cbn.
    eexists. split; [reflexivity |]. cbn. auto. }
  unfold failure_reason in *.
  destruct (code_is e (INSUFFICIENT_FUNDS ec)) eqn:E.
  - apply code_is_true in E.
    split; [tauto |]. split; [intros Hn; contradiction | exact Hdoc].
  - assert (code e <> Some (INSUFFICIENT_FUNDS ec)) as Hn.
    { intros H. apply code_is_true in H. congruence. }
    split; [| split; [reflexivity | exact Hdoc]].
    split; [intros H | contradiction].
    exfalso. symmetry in H. exact (no_ether_not_generic _ H).
Qed.

(** Two failures of the first of two confirmed requests: without balance
    its document is failed with the balance-shortage message; when the
    contract cannot be loaded it is failed with the generic reason. *)
Lemma C7_failure_reason_witness :
  (let after := db (snd (processRequest Sim.gateway Sim.codes 3 5 Sim.confirmed1 (Num 10)
                           Sim.s_broke)) in
   exists d' : DelegateRequestDoc,
     findById (Some 1) after = Some d'
     /\ status d' = Status.failed
     /\ reason d' = Some "Delegate account has no Ether on its balance")
  /\ (let after := db (snd (processRequest Sim.no_submit Sim.codes 3 5 Sim.confirmed1 (Num 10)
                              Sim.s_conflict)) in
      exists d' : DelegateRequestDoc,
        findById (Some 1) after = Some d'
        /\ status d' = Status.failed
        /\ reason d' = Some "Transaction error when publishing: Error: no signer").
Proof.
  split.
  - destruct (C7_failure_reason Sim.gateway Sim.codes 3 5 Sim.confirmed1 (Num 10)
                Sim.s_broke Sim.s_broke
                (Sim.error "INSUFFICIENT_FUNDS" "insufficient funds") eq_refl eq_refl)
      as (why & _ & Hiff & _ & Hdoc).
    destruct (Hdoc Sim.confirmed1 eq_refl) as (d' & Hfind & Hst & Hwhy).
    exists d'. split; [exact Hfind |]. split; [exact Hst |].
    rewrite Hwhy. f_equal. exact (proj2 Hiff eq_refl).
  - destruct (C7_failure_reason Sim.no_submit Sim.codes 3 5 Sim.confirmed1 (Num 10)
                Sim.s_conflict Sim.s_conflict
                (Sim.error "UNSUPPORTED_OPERATION" "no signer") eq_refl eq_refl)
      as (why & _ & _ & Hgen & Hdoc).
    destruct (Hdoc Sim.confirmed1 eq_refl) as (d' & Hfind & Hst & Hwhy).
    exists d'. split; [exact Hfind |]. split; [exact Hst |].
    rewrite Hwhy. f_equal. apply Hgen. discriminate.
Defined.

(** C10. Frame of the failure update: when the publication of a confirmed
    request raises, the update written names the status and the reason and
    nothing else; every document of the collection keeps its nonce and its
    transaction hash, and the request's document is now failed with the
    nonce and hash it had before the attempt. *)
Theorem C10_failure_update_frame {World : Type} (G : Gateway World) (ec : ErrorCode) (rc : Z)
        (fuel : nat) (request : DelegateRequestDoc) (cursor : jsnum)
        (s s1 : PassState World) (e : JsError) :
  status request = Status.confirmed ->
  publishTransaction G ec fuel request cursor s = (Throw e, s1) ->
  let after := db (snd (processRequest G ec rc fuel request cursor s)) in
  (exists u : SetFields,
      after = findOneAndUpdate (_id request) u (db s)
      /\ set_status u = Some Status.failed
      /\ set_reason u <> None
      /\ set_nonce u = None
      /\ set_transactionHash u = None
      /\ set_txReceipt u = None)
  /\ map nonce after = map nonce (db s)
  /\ map transactionHash after = map transactionHash (db s)
  /\ (forall d : DelegateRequestDoc,
        findById (_id request) (db s) = Some d ->
        exists d' : DelegateRequestDoc,
          findById (_id request) after = Some d'
          /\ status d' = Status.failed
          /\ nonce d' = nonce d
          /\ transactionHash d' = transactionHash d).
Proof.
  intros Hst Hp after. subst after.
  rewrite (processRequest_publish_raises G ec rc fuel request cursor s s1 e Hst Hp).
  cbn [snd db].
  split; [| split; [| split]].
  - exists (set_failed (failure_reason ec e)). cbn. repeat split. discriminate.
  - now apply findOneAndUpdate_nonce.
  - now apply findOneAndUpdate_transactionHash.
  - intros d Hd. rewrite findById_findOneAndUpdate, Hd. cbn.
    eexists. split; [reflexivity |]. cbn. auto.
Qed.

Lemma C10_failure_update_frame_witness :
  let after := db (snd (processRequest Sim.gateway Sim.codes 3 5 Sim.confirmed1 (Num 10) Sim.s_broke)) in
  map nonce after = [None; None]
  /\ map transactionHash after = [None; None]
  /\ map status after = [Status.failed; Status.confirmed].
Proof.
  intros after.
  destruct (C10_failure_update_frame Sim.gateway Sim.codes 3 5 Sim.confirmed1 (Num 10)
              Sim.s_broke Sim.s_broke
              (Sim.error "INSUFFICIENT_FUNDS" "insufficient funds")
              eq_refl eq_refl) as (_ & Hn & Hh & _).
  split; [exact Hn | split; [exact Hh | reflexivity]].
Defined.

(** C9. Publisher nonce monotonicity: a call of [publishTransaction] with
    candidate nonce [n] that returns, returns a nonce [n + k] for the
    number [k >= 0] of increments made, so never less than [n]. *)
Theorem C9_publisher_nonce_monotone {World : Type} (G : Gateway World) (ec : ErrorCode)
        (fuel : nat) (request : DelegateRequestDoc) (n : Z)
        (s s' : PassState World) (h : string) (m : jsnum) :
  publishTransaction G ec fuel request (Num n) s = (Ret (h, m), s') ->
  exists k : nat, m = Num (n + Z.of_nat k) /\ n <= n + Z.of_nat k.
Proof.
  unfold publishTransaction, bind, await.
  destruct (getContract G (chain s) _) as [[e | c] w]; [discriminate |].
  intros H. apply publish_loop_Ret in H. destruct H as (k & _ & ->).
  exists k. rewrite js_add_Num. split; [reflexivity | lia].
Qed.

Lemma C9_publisher_nonce_monotone_witness :
  fst (publishTransaction Sim.gateway Sim.codes 5 Sim.confirmed1 (Num 10) Sim.s_conflict) =
    Ret ("0xr1", Num 11)
  /\ exists k : nat, Num 11 = Num (10 + Z.of_nat k) /\ 10 <= 10 + Z.of_nat k.
Proof.
  split; [reflexivity |].
  apply (C9_publisher_nonce_monotone Sim.gateway Sim.codes 5 Sim.confirmed1 10
           Sim.s_conflict
           {| db := db Sim.s_conflict; chain := Sim.take 11 (chain Sim.s_conflict) |}
           "0xr1" (Num 11)).
  reflexivity.
Defined.



(** ** Step 3.2: a request in mining state *)

Section Mining.

Context {World : Type}.
Variable G : Gateway World.
Variable errorCode : ErrorCode.
Variable requiredConfirmations : Z.

Local Abbreviation step := (processRequest G errorCode requiredConfirmations).

Lemma processRequest_mining fuel request nextNonce (s : PassState World) ro w :
  status request = Status.mining ->
  getTransactionReceipt G (chain s) (transactionHash request) = (inr ro, w) ->
  step fuel request nextNonce s =
    match ro with
    | Some r =>
        if confirmations r <? requiredConfirmations then
          (Ret (if truthy (nonce request) then prop_succ (nonce request) else js_succ nextNonce),
           {| db := db s; chain := w |})
        else
          match getTransaction G w (transactionHash request) with
          | (inr (Some t), w') =>
              (Ret (Num (tx_nonce t + 1)),
               {| db := findOneAndUpdate (_id request)
                          (set_mined (debignumberify r) (tx_nonce t)) (db s);
                  chain := w' |})
          | (inr None, w') =>
              (Throw (TypeError destructure_null),
               {| db := db s; chain := w' |})
          | (inl e, w') => (Throw e, {| db := db s; chain := w' |})
          end
    | None => (Ret (js_succ nextNonce), {| db := db s; chain := w |})
    end.
Proof.
  intros Hst Hr. unfold processRequest. rewrite Hst.
  cbn [Z.eqb Status.confirmed Status.mined Status.mining Pos.eqb].
  rewrite (bind_Ret _ _ _ _ _ (await_inr _ _ _ _ Hr)).
  destruct ro as [r |]; [| reflexivity].
  destruct (confirmations r <? requiredConfirmations); [reflexivity |].
  unfold bind, await, update; cbn.
  destruct (getTransaction G w (transactionHash request)) as [[e | [t |]] w']; reflexivity.
Qed.

End Mining.

(** C2, as the code has it. For a request in mining state whose receipt
    reports fewer confirmations than required, nothing is written and the
    cursor becomes the recorded nonce plus one when that nonce is a number
    other than 0; when the recorded nonce is 0 (or none is recorded) the
    cursor becomes the old cursor plus one. The claim asks for [0 + 1] at a
    recorded nonce of 0. *)
Theorem C2_below_threshold_cursor {World : Type} (G : Gateway World) (ec : ErrorCode) (rc : Z)
        (fuel : nat) (request : DelegateRequestDoc) (cursor : jsnum)
        (s : PassState World) (r : TxReceipt) (w : World) :
  status request = Status.mining ->
  getTransactionReceipt G (chain s) (transactionHash request) = (inr (Some r), w) ->
  confirmations r < rc ->
  processRequest G ec rc fuel request cursor s =
    (Ret match nonce request with
         | Some (Num 0) => js_succ cursor
         | Some (Num z) => Num (z + 1)
         | Some NaN => js_succ cursor
         | None => js_succ cursor
         end,
     {| db := db s; chain := w |}).
Proof.
  intros Hst Hr Hlt.
  rewrite (processRequest_mining G ec rc fuel request cursor s (Some r) w Hst Hr).
  apply Z.ltb_lt in Hlt. rewrite Hlt.
  destruct (nonce request) as [[[| p | p] |] |]; reflexivity.
Qed.

(** The failing input of C2: the relayer's first transaction (nonce 0) has
    2 of 3 confirmations, the cursor is 1. The code moves the cursor to 2;
    the claim says [0 + 1 = 1]. *)
Lemma C2_below_threshold_cursor_witness :
  nonce Sim.mining0 = Some (Num 0)
  /\ processRequest Sim.gateway Sim.codes 3 5 Sim.mining0 (Num 1) (Sim.s_mining 2) =
       (Ret (Num 2), Sim.s_mining 2).
Proof.
  split; [reflexivity |].
  apply (C2_below_threshold_cursor Sim.gateway Sim.codes 3 5 Sim.mining0 (Num 1)
           (Sim.s_mining 2) (Sim.receipt 2) (chain (Sim.s_mining 2))).
  - reflexivity.
  - reflexivity.
  - cbn. lia.
Defined.

(** C5. Confirmation gating. Take a request in mining state whose document
    is in the collection, and the answer [ro] of the receipt lookup.
    - Only when: if after the step the request's document is mined, then a
      receipt was found and its confirmation count is at least the required
      threshold. No transaction lookup is assumed here.
    - When: if a receipt is found with at least the required confirmations
      and the transaction lookup, made then, finds the transaction [t], the
      update written is [{status: mined, txReceipt, nonce}] with the
      receipt's gas fields turned into plain numbers and the nonce of [t];
      the request's document is mined with that receipt and nonce, and the
      cursor becomes that nonce plus one, whatever the cursor was.
    - Below the threshold nothing is written. *)
Theorem C5_confirmation_gating {World : Type} (G : Gateway World) (ec : ErrorCode) (rc : Z)
        (fuel : nat) (request d : DelegateRequestDoc) (cursor : jsnum)
        (s : PassState World) (ro : option TxReceipt) (w1 : World) :
  status request = Status.mining ->
  findById (_id request) (db s) = Some d ->
  status d = Status.mining ->
  getTransactionReceipt G (chain s) (transactionHash request) = (inr ro, w1) ->
  let out := processRequest G ec rc fuel request cursor s in
  (exists d' : DelegateRequestDoc,
      findById (_id request) (db (snd out)) = Some d'
      /\ (status d' = Status.mined -> exists r, ro = Some r /\ rc <= confirmations r))
  /\ (forall (r : TxReceipt) (t : Transaction) (w2 : World),
        ro = Some r -> rc <= confirmations r ->
        getTransaction G w1 (transactionHash request) = (inr (Some t), w2) ->
        exists r' : TxReceipt,
          out = (Ret (Num (tx_nonce t + 1)),
                 {| db := findOneAndUpdate (_id request)
                            {| set_status := Some Status.mined;
                               set_transactionHash := None;
                               set_nonce := Some (Num (tx_nonce t));
                               set_txReceipt := Some r';
                               set_reason := None |} (db s);
                    chain := w2 |})
          /\ confirmations r' = confirmations r
          /\ gasUsed r' = unary_plus (gasUsed r)
          /\ cumulativeGasUsed r' = unary_plus (cumulativeGasUsed r)
          /\ is_plain (gasUsed r') = true
          /\ is_plain (cumulativeGasUsed r') = true
          /\ exists d' : DelegateRequestDoc,
               findById (_id request) (db (snd out)) = Some d'
               /\ status d' = Status.mined
               /\ nonce d' = Some (Num (tx_nonce t))
               /\ txReceipt d' = Some r')
  /\ ((forall r : TxReceipt, ro = Some r -> confirmations r < rc) ->
      db (snd out) = db s /\ exists c : jsnum, fst out = Ret c).
Proof.
  intros Hst Hd Hdst Hr out. subst out.
  rewrite (processRequest_mining G ec rc fuel request cursor s ro w1 Hst Hr).
  assert (exists d' : DelegateRequestDoc,
             findById (_id request) (db s) = Some d' /\ (status d' = Status.mined -> False))
    as Hsame.
  { exists d. split; [exact Hd |]. rewrite Hdst. discriminate. }
  destruct ro as [r |].
  - destruct (confirmations r <? rc) eqn:E.
    + apply Z.ltb_lt in E. split; [| split].
      * destruct Hsame as (d' & Hd' & Hno). exists d'. split; [exact Hd' |].
        intros H. destruct (Hno H).
      * intros r0 t w2 H0 Hge. injection H0 as <-. lia.
      * intros _. cbn. eauto.
    + apply Z.ltb_ge in E. split; [| split].
      * destruct (getTransaction G w1 (transactionHash request)) as [[e | [t |]] w2];
          cbn [snd db].
        -- destruct Hsame as (d' & Hd' & _). exists d'. split; [exact Hd' | eauto].
        -- rewrite findById_findOneAndUpdate, Hd. cbn. eexists. split; [reflexivity | eauto].
        -- destruct Hsame as (d' & Hd' & _). exists d'. split; [exact Hd' | eauto].
      * intros r0 t w2 H0 _ Ht. injection H0 as <-. rewrite Ht.
        exists (debignumberify r). split; [reflexivity |]. cbn [snd db].
        rewrite findById_findOneAndUpdate, Hd. cbn.
        repeat split; try (destruct (gasUsed r); reflexivity);
          try (destruct (cumulativeGasUsed r); reflexivity).
        eexists. split; [reflexivity |]. cbn. auto.
      * intros H. specialize (H r eq_refl). lia.
  - split; [| split].
    + destruct Hsame as (d' & Hd' & Hno). exists d'. split; [exact Hd' |].
      intros H. destruct (Hno H).
    + intros r0 t w2 H0. discriminate.
    + intros _. cbn. eauto.
Qed.

(** The scenario of the specification with a threshold of 3: a receipt
    with 5 confirmations moves the request to mined with the nonce of the
    chain's transaction (8, where 7 was recorded and the cursor was 20) and
    plain gas numbers; the cursor becomes 9. With no receipt yet, and a
    transaction the chain does not know, the request's document is not
    mined. *)
Lemma C5_confirmation_gating_witness :
  (let out := processRequest Sim.gateway Sim.codes 3 5 Sim.mining7 (Num 20) (Sim.s_mining7 5) in
   fst out = Ret (Num 9)
   /\ map status (db (snd out)) = [Status.mined]
   /\ map nonce (db (snd out)) = [Some (Num 8)]
   /\ map txReceipt (db (snd out)) =
        [Some {| confirmations := 5;
                 gasUsed := Number (Num 21000);
                 cumulativeGasUsed := Number (Num 63000) |}])
  /\ (let out := processRequest Sim.gateway Sim.codes 3 5 Sim.mining7 (Num 7) Sim.s_waiting in
      exists d' : DelegateRequestDoc,
        findById (Some 1) (db (snd out)) = Some d' /\ status d' <> Status.mined).
Proof.
  split.
  - intros out.
    destruct (C5_confirmation_gating Sim.gateway Sim.codes 3 5 Sim.mining7 Sim.mining7 (Num 20)
                (Sim.s_mining7 5) (Some (Sim.receipt 5)) (chain (Sim.s_mining7 5))
                eq_refl eq_refl eq_refl eq_refl) as (_ & Hup & _).
    destruct (Hup (Sim.receipt 5) {| tx_nonce := 8 |} (chain (Sim.s_mining7 5)) eq_refl)
      as (r' & Hout & Hc & Hg & Hcg & _).
    + cbn. lia.
    + reflexivity.
    + subst out. rewrite Hout. cbn.
      destruct r' as [c g cg]. cbn in Hc, Hg, Hcg. subst. repeat split.
  - intros out.
    destruct (C5_confirmation_gating Sim.gateway Sim.codes 3 5 Sim.mining7 Sim.mining7 (Num 7)
                Sim.s_waiting None (chain Sim.s_waiting)
                eq_refl eq_refl eq_refl eq_refl) as ((d' & Hfind & Honly) & _ & _).
    exists d'. split; [exact Hfind |].
    intros Hm. destruct (Honly Hm) as (r & Hr & _). discriminate.
Defined.

(** ** Whole passes on the executable chain *)

(** Nonce 10 is taken: the two confirmed requests are published at 11 and
    12. *)
Example pass_with_conflict :
  let out := syncAndPublish Sim.gateway Sim.codes 3 5 Sim.s_conflict in
  fst out = Ret tt
  /\ map (fun d => (status d, nonce d, transactionHash d)) (db (snd out)) =
       [(Status.mining, Some (Num 11), Some "0xr1"); (Status.mining, Some (Num 12), Some "0xr2")].
Proof. split; reflexivity. Qed.

(** No balance: both confirmed requests fail, none records a nonce. *)
Example pass_without_balance :
  let out := syncAndPublish Sim.gateway Sim.codes 3 5 Sim.s_broke in
  fst out = Ret tt
  /\ map (fun d => (status d, nonce d, reason d)) (db (snd out)) =
       [(Status.failed, None, Some no_ether); (Status.failed, None, Some no_ether)].
Proof. split; reflexivity. Qed.

(** A receipt below the threshold leaves the request in mining state; at
    the threshold the request is mined. *)
Example pass_below_threshold :
  map status (db (snd (syncAndPublish Sim.gateway Sim.codes 3 5 (Sim.s_mining7 2)))) =
    [Status.mining].
Proof. reflexivity. Qed.

Example pass_at_threshold :
  map status (db (snd (syncAndPublish Sim.gateway Sim.codes 3 5 (Sim.s_mining7 3)))) =
    [Status.mined].
Proof. reflexivity. Qed.

(** The retry loop runs out of fuel when every nonce it tries is taken. *)
Example publish_out_of_fuel :
  fst (publishTransaction Sim.gateway Sim.codes 2 Sim.confirmed1 (Num 10)
         {| db := []; chain := Sim.world 10 2 [10; 11] [] [] |}) = OutOfFuel.
Proof. reflexivity. Qed.

(** * Further properties of the pass *)

(** ** What a step writes *)

Lemma same_id_true a b : same_id a b = true <-> a = b.
Proof.
  destruct a as [x |], b as [y |]; cbn; try (split; congruence).
  rewrite Z.eqb_eq. split; congruence.
Qed.

Lemma findOneAndUpdate_keeps {A : Type} (f : DelegateRequestDoc -> A) i u (s : Store) :
  (forall d, f (apply_set u d) = f d) ->
  map f (findOneAndUpdate i u s) = map f s.
Proof.
  intros Hf. induction s as [| d rest IH]; [reflexivity |].
  cbn. destruct (same_id (_id d) i); cbn.
  - now rewrite Hf.
  - now rewrite IH.
Qed.

Lemma findOneAndUpdate_other i u (s : Store) k d :
  nth_error s k = Some d ->
  _id d <> i ->
  nth_error (findOneAndUpdate i u s) k = Some d.
Proof.
  revert k. induction s as [| d0 rest IH]; intros k Hk Hne; [destruct k; discriminate |].
  cbn. destruct (same_id (_id d0) i) eqn:E.
  - destruct k as [| k]; cbn in *; [| exact Hk].
    injection Hk as ->. apply same_id_true in E. contradiction.
  - destruct k as [| k]; cbn in *; [exact Hk | now apply IH].
Qed.

Lemma startingNonce_db {World : Type} (G : Gateway World) (s : PassState World) :
  db (snd (startingNonce G s)) = db s.
Proof.
  unfold startingNonce, bind, await, query.
  destruct (getWallet G (chain s)) as [[e | wallet] w]; cbn; [reflexivity |].
  destruct (findLastMined (db s)) as [m |]; cbn; [reflexivity |].
  destruct (getTransactionCount G w (address wallet) None) as [[e | n] w']; reflexivity.
Qed.

(** Lifecycle of one step. Whatever the chain answers, the step of a request
    either leaves the collection as it is or writes one update to the
    document with the request's [_id]; the status written is mined for a
    request in mining state and mining or failed for a confirmed request,
    and requests of any other status cause no write. *)
Theorem step_writes_one_transition {World : Type} (G : Gateway World) (ec : ErrorCode)
        (rc : Z) (fuel : nat) (request : DelegateRequestDoc) (cursor : jsnum)
        (s : PassState World) :
  let after := db (snd (processRequest G ec rc fuel request cursor s)) in
  after = db s
  \/ exists u : SetFields,
       after = findOneAndUpdate (_id request) u (db s)
       /\ ((status request = Status.mining /\ set_status u = Some Status.mined)
           \/ (status request = Status.confirmed
               /\ (set_status u = Some Status.mining \/ set_status u = Some Status.failed))).
Proof.
  intros after. subst after.
  destruct (status request =? Status.mined) eqn:E1;
    [left; unfold processRequest; now rewrite E1 |].
  destruct (status request =? Status.mining) eqn:E2.
  - apply Z.eqb_eq in E2.
    destruct (getTransactionReceipt G (chain s) (transactionHash request)) as [[e | ro] w] eqn:Hr.
    + left. unfold processRequest. rewrite E2. cbn [Z.eqb Status.mining Status.mined Pos.eqb].
      now rewrite (bind_Throw _ _ _ _ _ (await_inl _ _ _ _ Hr)).
    + rewrite (processRequest_mining G ec rc fuel request cursor s ro w E2 Hr).
      destruct ro as [r |]; [| now left].
      destruct (confirmations r <? rc); [now left |].
      destruct (getTransaction G w (transactionHash request)) as [[e | [t |]] w'];
        [now left | | now left].
      right. eexists. split; [reflexivity |]. left. split; [exact E2 | reflexivity].
  - destruct (status request =? Status.confirmed) eqn:E3.
    + apply Z.eqb_eq in E3.
      rewrite (processRequest_confirmed G ec rc fuel request cursor s E3).
      pose proof (publishTransaction_db G ec fuel request cursor s) as Hdb.
      destruct (publishTransaction G ec fuel request cursor s) as [[[h n] | e |] s1];
        cbn in Hdb; cbn [snd db]; rewrite ?Hdb.
      * right. eexists. split; [reflexivity |]. right. split; [exact E3 |]. now left.
      * right. eexists. split; [reflexivity |]. right. split; [exact E3 |]. now right.
      * now left.
    + left. unfold processRequest. now rewrite E1, E2, E3.
Qed.

Lemma processRequest_keeps {World A : Type} (G : Gateway World) ec rc fuel request cursor
      (s : PassState World) (f : DelegateRequestDoc -> A) :
  (forall u d, f (apply_set u d) = f d) ->
  map f (db (snd (processRequest G ec rc fuel request cursor s))) = map f (db s).
Proof.
  intros Hf.
  destruct (step_writes_one_transition G ec rc fuel request cursor s) as [-> | (u & -> & _)];
    [reflexivity |].
  apply findOneAndUpdate_keeps. apply Hf.
Qed.

Lemma processQueue_keeps {World A : Type} (G : Gateway World) ec rc fuel queue cursor
      (s : PassState World) (f : DelegateRequestDoc -> A) :
  (forall u d, f (apply_set u d) = f d) ->
  map f (db (snd (processQueue G ec rc fuel queue cursor s))) = map f (db s).
Proof.
  intros Hf. revert cursor s.
  induction queue as [| r rest IH]; intros cursor s; [reflexivity |].
  cbn [processQueue]. unfold bind.
  pose proof (processRequest_keeps G ec rc fuel r cursor s f Hf) as H1.
  destruct (processRequest G ec rc fuel r cursor s) as [[c1 | e |] s1]; cbn in H1 |- *;
    try exact H1.
  now rewrite IH.
Qed.

Lemma syncAndPublish_keeps {World A : Type} (G : Gateway World) ec rc fuel
      (s : PassState World) (f : DelegateRequestDoc -> A) :
  (forall u d, f (apply_set u d) = f d) ->
  map f (db (snd (syncAndPublish G ec rc fuel s))) = map f (db s).
Proof.
  intros Hf. unfold syncAndPublish, bind at 1.
  pose proof (startingNonce_db G s) as H0.
  destruct (startingNonce G s) as [[start | e |] s0]; cbn in H0 |- *; try (now rewrite H0).
  rewrite <- H0. unfold bind, query. cbn.
  pose proof (processQueue_keeps G ec rc fuel (findBacklog (fst start) (db s0)) (snd start) s0 f Hf)
    as H1.
  destruct (processQueue G ec rc fuel (findBacklog (fst start) (db s0)) (snd start) s0)
    as [[c | e |] s1]; cbn in H1 |- *; exact H1.
Qed.

(** Frame of a whole pass. However the pass ends (it returns, raises or
    runs on), it inserts and deletes no document and keeps the order and,
    for every document, the [_id], the [id], the signer, the context, the
    fee, the signature options and both timestamps. *)
Theorem pass_keeps_documents {World : Type} (G : Gateway World) (ec : ErrorCode) (rc : Z)
        (fuel : nat) (s : PassState World) :
  let after := db (snd (syncAndPublish G ec rc fuel s)) in
  List.length after = List.length (db s)
  /\ map _id after = map _id (db s)
  /\ map id after = map id (db s)
  /\ map signer after = map signer (db s)
  /\ map context after = map context (db s)
  /\ map fee after = map fee (db s)
  /\ map signatureOptions after = map signatureOptions (db s)
  /\ map createdAt after = map createdAt (db s)
  /\ map expiresAt after = map expiresAt (db s).
Proof.
  intros after. subst after.
  split.
  - rewrite <- (length_map _id), <- (length_map _id (db s)).
    now rewrite (syncAndPublish_keeps G ec rc fuel s _id).
  - repeat split; now apply syncAndPublish_keeps.
Qed.

(** ** The queue of a pass *)

Lemma findLastMined_None (s : Store) :
  findLastMined s = None -> forall d, In d s -> status d <> Status.mined.
Proof.
  unfold findLastMined. intros H d Hd Hst.
  assert (In d (rev (filter (fun d => status d =? Status.mined) s))) as Hin.
  { apply in_rev. rewrite rev_involutive. apply filter_In. split; [exact Hd |].
    now apply Z.eqb_eq. }
  destruct (rev (filter (fun d => status d =? Status.mined) s)); [contradiction | discriminate].
Qed.

Lemma backlog_status_true st :
  backlog_status st = true <->
  st = Status.confirmed \/ st = Status.mining \/ st = Status.mined.
Proof.
  unfold backlog_status. rewrite !orb_true_iff, !Z.eqb_eq. tauto.
Qed.

Lemma startingNonce_Ret {World : Type} (G : Gateway World) (s s' : PassState World) lm c :
  startingNonce G s = (Ret (lm, c), s') ->
  lm = None /\ findLastMined (db s) = None /\ exists n : Z, c = Num n.
Proof.
  unfold startingNonce, bind, await, query.
  destruct (getWallet G (chain s)) as [[e | wallet] w]; cbn; [discriminate |].
  destruct (findLastMined (db s)) as [m |]; cbn; [discriminate |].
  destruct (getTransactionCount G w (address wallet) None) as [[e | n] w']; [discriminate |].
  intros H. injection H as <- <- <-. eauto.
Qed.

(** The queue of a pass that gets to its loop. When step 1 returns, the
    collection holds no mined request, the starting nonce is an integer, and
    the queue fetched in step 2 consists of documents of the collection
    whose status is confirmed or mining: neither the branch for mined
    requests nor the branch for unknown statuses is taken in such a pass. *)
Theorem queue_is_confirmed_or_mining {World : Type} (G : Gateway World)
        (s s' : PassState World) (lastMinedTx : option DelegateRequestDoc) (nextNonce : jsnum) :
  startingNonce G s = (Ret (lastMinedTx, nextNonce), s') ->
  (forall d, In d (db s) -> status d <> Status.mined)
  /\ (exists n : Z, nextNonce = Num n)
  /\ db s' = db s
  /\ Forall (fun d => In d (db s)
                      /\ (status d = Status.confirmed \/ status d = Status.mining))
            (findBacklog lastMinedTx (db s')).
Proof.
  intros H.
  pose proof (startingNonce_db G s) as Hdb. rewrite H in Hdb. cbn in Hdb.
  destruct (startingNonce_Ret G s s' _ _ H) as (-> & Hnone & Hn).
  pose proof (findLastMined_None _ Hnone) as Hno.
  repeat split; auto.
  rewrite Hdb. apply Forall_forall. intros d Hd.
  unfold findBacklog in Hd. apply filter_In in Hd. destruct Hd as [Hin Hst].
  cbn in Hst. apply backlog_status_true in Hst.
  split; [exact Hin |].
  destruct Hst as [Hc | [Hm | Hmined]]; auto.
  exfalso. exact (Hno d Hin Hmined).
Qed.

Lemma queue_is_confirmed_or_mining_witness :
  Forall (fun d => In d (db Sim.s_mixed)
                   /\ (status d = Status.confirmed \/ status d = Status.mining))
         (findBacklog None (db Sim.s_mixed))
  /\ findBacklog None (db Sim.s_mixed) = [Sim.confirmed2].
Proof.
  split; [| reflexivity].
  apply (queue_is_confirmed_or_mining Sim.gateway Sim.s_mixed Sim.s_mixed None (Num 10)).
  reflexivity.
Defined.

(** ** Documents a pass does not touch *)

Lemma NoDup_map_inj {A B : Type} (f : A -> B) (l : list A) a b :
  NoDup (map f l) -> In a l -> In b l -> f a = f b -> a = b.
Proof.
  induction l as [| x l IH]; cbn; intros Hnd Ha Hb Hf; [contradiction |].
  inversion Hnd as [| ? ? Hnotin Hnd']; subst.
  destruct Ha as [-> | Ha], Hb as [-> | Hb]; auto.
  - exfalso. apply Hnotin. rewrite Hf. now apply in_map.
  - exfalso. apply Hnotin. rewrite <- Hf. now apply in_map.
Qed.

Lemma processRequest_other {World : Type} (G : Gateway World) ec rc fuel request cursor
      (s : PassState World) k d :
  nth_error (db s) k = Some d ->
  _id d <> _id request ->
  nth_error (db (snd (processRequest G ec rc fuel request cursor s))) k = Some d.
Proof.
  intros Hk Hne.
  destruct (step_writes_one_transition G ec rc fuel request cursor s) as [-> | (u & -> & _)];
    [exact Hk |].
  now apply findOneAndUpdate_other.
Qed.

Lemma processQueue_other {World : Type} (G : Gateway World) ec rc fuel queue cursor
      (s : PassState World) k d :
  nth_error (db s) k = Some d ->
  (forall r, In r queue -> _id d <> _id r) ->
  nth_error (db (snd (processQueue G ec rc fuel queue cursor s))) k = Some d.
Proof.
  revert cursor s. induction queue as [| r rest IH]; intros cursor s Hk Hq; [exact Hk |].
  cbn [processQueue]. unfold bind.
  pose proof (processRequest_other G ec rc fuel r cursor s k d Hk (Hq r (or_introl eq_refl))) as H1.
  destruct (processRequest G ec rc fuel r cursor s) as [[c1 | e |] s1]; cbn in H1 |- *;
    try exact H1.
  apply IH; [exact H1 |]. intros r' Hr'. apply Hq. now right.
Qed.

(** Documents outside the queue are not touched. In a collection with
    unique [_id]s, a document whose status is neither confirmed nor mining
    (new, failed, mined or unknown) is, at the end of a pass and however the
    pass ends, the same document at the same place. *)
Theorem pass_leaves_other_statuses {World : Type} (G : Gateway World) (ec : ErrorCode)
        (rc : Z) (fuel : nat) (s : PassState World) (k : nat) (d : DelegateRequestDoc) :
  NoDup (map _id (db s)) ->
  nth_error (db s) k = Some d ->
  status d <> Status.confirmed ->
  status d <> Status.mining ->
  nth_error (db (snd (syncAndPublish G ec rc fuel s))) k = Some d.
Proof.
  intros Hnd Hk Hnc Hnm.
  unfold syncAndPublish, bind at 1.
  pose proof (startingNonce_db G s) as H0.
  pose proof (queue_is_confirmed_or_mining G s) as Hq.
  destruct (startingNonce G s) as [[[lm c] | e |] s0]; cbn in H0 |- *; try (now rewrite H0).
  destruct (Hq s0 lm c eq_refl) as (_ & _ & _ & Hall).
  rewrite Forall_forall in Hall.
  unfold bind, query. cbn.
  assert (nth_error (db (snd (processQueue G ec rc fuel (findBacklog lm (db s0)) c s0))) k
          = Some d) as H1.
  { apply processQueue_other; [now rewrite H0 |].
    intros r Hr Heq. destruct (Hall r Hr) as [Hin Hst].
    assert (d = r) as ->.
    { apply (NoDup_map_inj _id (db s)); auto. eapply nth_error_In; eassumption. }
    tauto. }
  destruct (processQueue G ec rc fuel (findBacklog lm (db s0)) c s0) as [[c' | e |] s1];
    cbn in H1 |- *; exact H1.
Qed.

Lemma pass_leaves_other_statuses_witness :
  let after := db (snd (syncAndPublish Sim.gateway Sim.codes 3 5 Sim.s_mixed)) in
  nth_error after 0 = Some Sim.failed1
  /\ map status after = [Status.failed; Status.mining; Status.new].
Proof.
  intros after. split; [| reflexivity].
  apply (pass_leaves_other_statuses Sim.gateway Sim.codes 3 5 Sim.s_mixed 0 Sim.failed1).
  - repeat constructor; cbn; intuition discriminate.
  - reflexivity.
  - discriminate.
  - discriminate.
Defined.

(** ** Requests in mining state: errors and waiting *)

(** A failing receipt lookup is not isolated. When the receipt lookup of a
    request in mining state raises, the loop stops there with that error:
    nothing is written for this request and the requests after it are not
    processed. *)
Theorem receipt_error_aborts_pass {World : Type} (G : Gateway World) (ec : ErrorCode)
        (rc : Z) (fuel : nat) (request : DelegateRequestDoc)
        (rest : list DelegateRequestDoc) (cursor : jsnum) (s : PassState World)
        (e : JsError) (w : World) :
  status request = Status.mining ->
  getTransactionReceipt G (chain s) (transactionHash request) = (inl e, w) ->
  processQueue G ec rc fuel (request :: rest) cursor s =
    (Throw e, {| db := db s; chain := w |}).
Proof.
  intros Hst Hr. cbn [processQueue].
  apply bind_Throw. unfold processRequest. rewrite Hst.
  cbn [Z.eqb Status.mining Status.mined Pos.eqb].
  now rewrite (bind_Throw _ _ _ _ _ (await_inl _ _ _ _ Hr)).
Qed.

Lemma receipt_error_aborts_pass_witness :
  processQueue Sim.offline Sim.codes 3 5 [Sim.mining7; Sim.confirmed2] (Num 9) Sim.s_no_tx =
    (Throw (Sim.error "SERVER_ERROR" "bad response"), Sim.s_no_tx).
Proof.
  apply (receipt_error_aborts_pass Sim.offline Sim.codes 3 5 Sim.mining7 [Sim.confirmed2]
           (Num 9) Sim.s_no_tx (Sim.error "SERVER_ERROR" "bad response") (chain Sim.s_no_tx));
    reflexivity.
Defined.

(** A transaction that is not found. When the receipt of a request in
    mining state has enough confirmations but the transaction lookup gives
    [null], the loop stops with a TypeError (an error without [code]): the
    request is not marked mined, nothing is written, and the requests after
    it are not processed. *)
Theorem missing_transaction_aborts_pass {World : Type} (G : Gateway World) (ec : ErrorCode)
        (rc : Z) (fuel : nat) (request : DelegateRequestDoc)
        (rest : list DelegateRequestDoc) (cursor : jsnum) (s : PassState World)
        (r : TxReceipt) (w1 w2 : World) :
  status request = Status.mining ->
  getTransactionReceipt G (chain s) (transactionHash request) = (inr (Some r), w1) ->
  rc <= confirmations r ->
  getTransaction G w1 (transactionHash request) = (inr None, w2) ->
  exists what : string,
    processQueue G ec rc fuel (request :: rest) cursor s =
      (Throw (TypeError what), {| db := db s; chain := w2 |}).
Proof.
  intros Hst Hr Hge Ht. exists destructure_null.
  cbn [processQueue]. apply bind_Throw.
  rewrite (processRequest_mining G ec rc fuel request cursor s (Some r) w1 Hst Hr).
  apply Z.ltb_ge in Hge. now rewrite Hge, Ht.
Qed.

Lemma missing_transaction_aborts_pass_witness :
  exists what : string,
    processQueue Sim.gateway Sim.codes 3 5 [Sim.mining7; Sim.confirmed2] (Num 9) Sim.s_no_tx =
      (Throw (TypeError what), Sim.s_no_tx).
Proof.
  apply (missing_transaction_aborts_pass Sim.gateway Sim.codes 3 5 Sim.mining7 [Sim.confirmed2]
           (Num 9) Sim.s_no_tx (Sim.receipt 5) (chain Sim.s_no_tx) (chain Sim.s_no_tx)).
  - reflexivity.
  - reflexivity.
  - cbn. lia.
  - reflexivity.
Defined.

(** Waiting for receipts. Over a queue of requests in mining state for
    which the chain has no receipt yet, the loop writes nothing and moves
    the cursor forward by one per request, whatever nonces the requests
    record. *)
Theorem waiting_queue_advances_cursor {World : Type} (G : Gateway World) (ec : ErrorCode)
        (rc : Z) (fuel : nat) (queue : list DelegateRequestDoc) (cursor : Z)
        (s : PassState World) :
  Forall (fun r => status r = Status.mining
                   /\ getTransactionReceipt G (chain s) (transactionHash r) =
                        (inr None, chain s)) queue ->
  processQueue G ec rc fuel queue (Num cursor) s =
    (Ret (Num (cursor + Z.of_nat (List.length queue))), s).
Proof.
  intros Hall. revert cursor.
  induction Hall as [| r rest [Hst Hnone] _ IH]; intros cursor.
  - cbn. unfold ret. do 3 f_equal. lia.
  - cbn [processQueue List.length].
    assert (processRequest G ec rc fuel r (Num cursor) s = (Ret (Num (cursor + 1)), s)) as E.
    { rewrite (processRequest_mining G ec rc fuel r (Num cursor) s None (chain s) Hst Hnone).
      destruct s; reflexivity. }
    rewrite (bind_Ret _ _ _ _ _ E), IH. do 3 f_equal. lia.
Qed.

Lemma waiting_queue_advances_cursor_witness :
  processQueue Sim.gateway Sim.codes 3 5 [Sim.mining7; Sim.mining8] (Num 7) Sim.s_waiting =
    (Ret (Num 9), Sim.s_waiting).
Proof.
  apply (waiting_queue_advances_cursor Sim.gateway Sim.codes 3 5 [Sim.mining7; Sim.mining8] 7
           Sim.s_waiting).
  repeat constructor.
Defined.

(** ** Which requests reach the chain *)

(** Requests that need no chain. The step of a request whose status is
    neither mining nor confirmed makes no call and no write: the whole state
    is as before. For a mined request the cursor becomes its recorded nonce
    plus one ([NaN] when no nonce is recorded); for any other status the
    cursor is unchanged. *)
Theorem settled_request_step {World : Type} (G : Gateway World) (ec : ErrorCode)
        (rc : Z) (fuel : nat) (request : DelegateRequestDoc) (cursor : jsnum)
        (s : PassState World) :
  status request <> Status.mining ->
  status request <> Status.confirmed ->
  processRequest G ec rc fuel request cursor s =
    (Ret (if status request =? Status.mined
          then match nonce request with
               | Some (Num z) => Num (z + 1)
               | Some NaN => NaN
               | None => NaN
               end
          else cursor), s).
Proof.
  intros Hm Hc. unfold processRequest.
  destruct (status request =? Status.mined); [destruct (nonce request) as [[z |] |]; reflexivity |].
  apply Z.eqb_neq in Hm, Hc. now rewrite Hm, Hc.
Qed.

Lemma settled_request_step_witness :
  processRequest Sim.gateway Sim.codes 3 5 Sim.failed1 (Num 10) Sim.s_mixed =
    (Ret (Num 10), Sim.s_mixed)
  /\ processRequest Sim.gateway Sim.codes 3 5
       (Sim.request 4 "r4" Status.mined None None) (Num 10) Sim.s_mixed =
     (Ret NaN, Sim.s_mixed).
Proof.
  split.
  - apply (settled_request_step Sim.gateway Sim.codes 3 5 Sim.failed1 (Num 10) Sim.s_mixed);
      discriminate.
  - apply (settled_request_step Sim.gateway Sim.codes 3 5
             (Sim.request 4 "r4" Status.mined None None) (Num 10) Sim.s_mixed);
      discriminate.
Defined.

(** Only confirmed requests are submitted. The step of a request that is
    not confirmed does not depend on the contract loader or on the
    contract call: two chain clients that answer the receipt and
    transaction lookups alike give the same step. *)
Theorem only_confirmed_is_submitted {World : Type} (G G' : Gateway World) (ec : ErrorCode)
        (rc : Z) (fuel : nat) (request : DelegateRequestDoc) (cursor : jsnum)
        (s : PassState World) :
  getTransactionReceipt G = getTransactionReceipt G' ->
  getTransaction G = getTransaction G' ->
  status request <> Status.confirmed ->
  processRequest G ec rc fuel request cursor s =
  processRequest G' ec rc fuel request cursor s.
Proof.
  intros Hr Ht Hc. unfold processRequest. rewrite Hr, Ht.
  apply Z.eqb_neq in Hc. rewrite Hc. reflexivity.
Qed.

Lemma only_confirmed_is_submitted_witness :
  processRequest Sim.gateway Sim.codes 3 5 Sim.mining7 (Num 9) (Sim.s_mining7 5) =
  processRequest Sim.no_submit Sim.codes 3 5 Sim.mining7 (Num 9) (Sim.s_mining7 5).
Proof.
  apply (only_confirmed_is_submitted Sim.gateway Sim.no_submit Sim.codes 3 5 Sim.mining7
           (Num 9) (Sim.s_mining7 5)).
  - reflexivity.
  - reflexivity.
  - discriminate.
Defined.

(** ** Nonces over confirmed requests *)

Lemma publishTransaction_Ret {World : Type} (G : Gateway World) ec fuel request (c : Z)
      (s s' : PassState World) h m :
  publishTransaction G ec fuel request (Num c) s = (Ret (h, m), s') ->
  exists z : Z, m = Num z /\ c <= z.
Proof.
  unfold publishTransaction, bind, await.
  destruct (getContract G (chain s) _) as [[e | ct] w]; [discriminate |].
  intros H. apply publish_loop_Ret in H. destruct H as (k & _ & ->).
  rewrite js_add_Num. eexists. split; [reflexivity | lia].
Qed.

Lemma processRequest_confirmed_cursor {World : Type} (G : Gateway World) ec rc fuel request
      (c : Z) (s s' : PassState World) c' :
  status request = Status.confirmed ->
  processRequest G ec rc fuel request (Num c) s = (Ret c', s') ->
  exists z : Z, c' = Num z /\ c <= z.
Proof.
  intros Hst. rewrite (processRequest_confirmed G ec rc fuel request (Num c) s Hst).
  destruct (publishTransaction G ec fuel request (Num c) s) as [[[h n] | e |] s1] eqn:Hp.
  - intros H. injection H as <- <-.
    destruct (publishTransaction_Ret G ec fuel request c s s1 h n Hp) as (z & -> & Hz).
    exists (z + 1). split; [reflexivity | lia].
  - intros H. injection H as <- <-. exists c. split; [reflexivity | lia].
  - discriminate.
Qed.

Lemma processQueue_confirmed_cursor {World : Type} (G : Gateway World) ec rc fuel queue
      (c : Z) (s s' : PassState World) c' :
  Forall (fun r => status r = Status.confirmed) queue ->
  processQueue G ec rc fuel queue (Num c) s = (Ret c', s') ->
  exists z : Z, c' = Num z /\ c <= z.
Proof.
  intros Hall. revert c s.
  induction Hall as [| r rest Hst _ IH]; intros c s.
  - cbn. unfold ret. intros H. injection H as <- <-. exists c. split; [reflexivity | lia].
  - cbn [processQueue]. unfold bind.
    destruct (processRequest G ec rc fuel r (Num c) s) as [[c1 | e |] s1] eqn:E;
      try discriminate.
    destruct (processRequest_confirmed_cursor G ec rc fuel r c s s1 c1 Hst E) as (z1 & -> & Hz1).
    intros H. destruct (IH _ _ H) as (z & -> & Hz).
    exists z. split; [reflexivity | lia].
Qed.

(** Monotonic assignment. Take a confirmed request published with nonce
    [n1], then any run of confirmed requests (published or failed), then a
    confirmed request published with nonce [n2], all in one loop started
    from the integer cursor [c]. Then [c <= n1 < n2]: nonces given to
    published requests strictly increase in processing order. *)
Theorem published_nonces_increase {World : Type} (G : Gateway World) (ec : ErrorCode)
        (rc : Z) (fuel : nat) (r1 r2 : DelegateRequestDoc) (mid : list DelegateRequestDoc)
        (c : Z) (s s1 s2 s3 : PassState World) (h1 h2 : string) (n1 n2 c2 : jsnum) :
  status r1 = Status.confirmed ->
  Forall (fun r => status r = Status.confirmed) mid ->
  publishTransaction G ec fuel r1 (Num c) s = (Ret (h1, n1), s1) ->
  processQueue G ec rc fuel (r1 :: mid) (Num c) s = (Ret c2, s2) ->
  publishTransaction G ec fuel r2 c2 s2 = (Ret (h2, n2), s3) ->
  exists z1 z2 : Z, n1 = Num z1 /\ n2 = Num z2 /\ c <= z1 /\ z1 < z2.
Proof.
  intros Hst1 Hmid Hp1 Hq Hp2.
  destruct (publishTransaction_Ret G ec fuel r1 c s s1 h1 n1 Hp1) as (z1 & -> & Hz1).
  cbn [processQueue] in Hq.
  rewrite (bind_Ret _ _ _ _ _
             (processRequest_publish_returns G ec rc fuel r1 (Num c) s s1 h1 (Num z1) Hst1 Hp1))
    in Hq.
  cbn [js_succ] in Hq.
  destruct (processQueue_confirmed_cursor G ec rc fuel mid (z1 + 1) _ s2 c2 Hmid Hq)
    as (zc & -> & Hzc).
  destruct (publishTransaction_Ret G ec fuel r2 zc s2 s3 h2 n2 Hp2) as (z2 & -> & Hz2).
  exists z1, z2. repeat split; lia.
Qed.

Lemma published_nonces_increase_witness :
  exists z1 z2 : Z, Num 11 = Num z1 /\ Num 12 = Num z2 /\ 10 <= z1 /\ z1 < z2.
Proof.
  pose (s1 := {| db := db Sim.s_conflict; chain := Sim.take 11 (chain Sim.s_conflict) |}).
  pose (s2 := {| db := findOneAndUpdate (Some 1) (set_mining "0xr1" (Num 11)) (db Sim.s_conflict);
                 chain := Sim.take 11 (chain Sim.s_conflict) |}).
  pose (s3 := {| db := db s2; chain := Sim.take 12 (chain s2) |}).
  apply (published_nonces_increase Sim.gateway Sim.codes 3 5 Sim.confirmed1 Sim.confirmed2 []
           10 Sim.s_conflict s1 s2 s3 "0xr1" "0xr2" (Num 11) (Num 12) (Num 12)).
  - reflexivity.
  - constructor.
  - reflexivity.
  - reflexivity.
  - reflexivity.
Defined.

(** ** The retry loop has no bound *)

(** On a chain that refuses every submission with a nonce conflict, the
    retry loop of [publishTransaction] gives no result within any number of
    attempts: it neither returns nor raises, and the step of the confirmed
    request never gets to its write. *)
Theorem retry_loop_is_unbounded {World : Type} (G : Gateway World) (ec : ErrorCode)
        (rc : Z) (request : DelegateRequestDoc) (s : PassState World) (c : ContractRef)
        (w0 : World) :
  status request = Status.confirmed ->
  getContract G (chain s) (contract_address (contract (context request))) = (inr c, w0) ->
  (forall w n, exists e w',
      callDelegated G w c request n = (inl e, w') /\ nonce_conflict ec e = true) ->
  forall (fuel : nat) (cursor : jsnum),
    fst (publishTransaction G ec fuel request cursor s) = OutOfFuel
    /\ fst (processRequest G ec rc fuel request cursor s) = OutOfFuel
    /\ db (snd (processRequest G ec rc fuel request cursor s)) = db s.
Proof.
  intros Hst Hc Hjam fuel cursor.
  assert (forall n s', fst (publish_loop G ec fuel c request n s') = OutOfFuel) as Hloop.
  { induction fuel as [| fuel IH]; intros n s'; [reflexivity |].
    destruct (Hjam (chain s') n) as (e & w' & Hcall & Hconf).
    rewrite (publish_loop_conflict G ec fuel c request n s' e w' Hcall Hconf). apply IH. }
  assert (fst (publishTransaction G ec fuel request cursor s) = OutOfFuel) as Hp.
  { unfold publishTransaction. rewrite (bind_Ret _ _ _ _ _ (await_inr _ _ _ _ Hc)). apply Hloop. }
  split; [exact Hp |].
  rewrite (processRequest_confirmed G ec rc fuel request cursor s Hst).
  pose proof (publishTransaction_db G ec fuel request cursor s) as Hdb.
  destruct (publishTransaction G ec fuel request cursor s) as [[[h n] | e |] s1];
    cbn in Hp; try discriminate.
  split; [reflexivity | exact Hdb].
Qed.

Lemma retry_loop_is_unbounded_witness :
  fst (publishTransaction Sim.jammed Sim.codes 1000 Sim.confirmed1 (Num 10) Sim.s_conflict) =
    OutOfFuel.
Proof.
  apply (retry_loop_is_unbounded Sim.jammed Sim.codes 3 Sim.confirmed1 Sim.s_conflict
           {| contract_address := "0xtoken" |} (chain Sim.s_conflict)).
  - reflexivity.
  - reflexivity.
  - intros w n. eexists. eexists. split; reflexivity.
Defined.

(** ** [create] and the pass *)

(** A created request is not work for the pass. Creating a request changes
    neither the last mined request nor the queue that step 2 fetches: the
    new document has status new, which the queue's filter leaves out. *)
Theorem create_leaves_queue (dflt now : Z) (a : CreateArgs) (s : Store)
        (lastMinedTx : option DelegateRequestDoc) :
  findLastMined (fst (create dflt now a s)) = findLastMined s
  /\ findBacklog lastMinedTx (fst (create dflt now a s)) = findBacklog lastMinedTx s.
Proof.
  unfold findLastMined, findBacklog. cbn [create fst].
  rewrite !filter_app. cbn [filter status Status.new].
  split.
  - cbn. now rewrite app_nil_r.
  - replace (backlog_status 0) with false by reflexivity.
    rewrite andb_false_r. now rewrite app_nil_r.
Qed.

(** ** From one pass to the next *)

Lemma findById_In i (s : Store) d : findById i s = Some d -> In d s /\ _id d = i.
Proof.
  unfold findById. intros H. apply find_some in H. destruct H as [Hin Hid].
  apply same_id_true in Hid. auto.
Qed.



Lemma findOneAndUpdate_In i u (s : Store) d :
  NoDup (map _id s) ->
  In d (findOneAndUpdate i u s) ->
  _id d = i ->
  exists d0, In d0 s /\ d = apply_set u d0.
Proof.
  induction s as [| d0 rest IH]; cbn; intros Hnd Hin Hid; [contradiction |].
  inversion Hnd as [| ? ? Hnotin Hnd']; subst.
  destruct (same_id (_id d0) (_id d)) eqn:E.
  - apply same_id_true in E. destruct Hin as [<- | Hin]; [eauto |].
    exfalso. apply Hnotin. rewrite E. now apply in_map.
  - destruct Hin as [<- | Hin].
    + assert (same_id (_id d0) (_id d0) = true) as E' by now apply same_id_true.
      congruence.
    + destruct (IH Hnd' Hin eq_refl) as (d1 & Hd1 & ->). eauto.
Qed.

(** A failed request is not tried again. In a collection with unique
    [_id]s, after the step of a confirmed request whose publication raises,
    no document with that request's [_id] is in the queue of a later pass,
    whatever that pass takes as its last mined request. *)
Theorem failed_request_leaves_queue {World : Type} (G : Gateway World) (ec : ErrorCode)
        (rc : Z) (fuel : nat) (request : DelegateRequestDoc) (cursor : jsnum)
        (s s1 : PassState World) (e : JsError) (lastMinedTx : option DelegateRequestDoc) :
  NoDup (map _id (db s)) ->
  status request = Status.confirmed ->
  publishTransaction G ec fuel request cursor s = (Throw e, s1) ->
  let after := db (snd (processRequest G ec rc fuel request cursor s)) in
  forall d, In d (findBacklog lastMinedTx after) -> _id d <> _id request.
Proof.
  intros Hnd Hst Hp after d Hd Hid. subst after.
  rewrite (processRequest_publish_raises G ec rc fuel request cursor s s1 e Hst Hp) in Hd.
  cbn [snd db] in Hd. unfold findBacklog in Hd. apply filter_In in Hd.
  destruct Hd as [Hin Hf].
  destruct (findOneAndUpdate_In _ _ _ _ Hnd Hin Hid) as (d0 & _ & ->).
  cbn in Hf. rewrite andb_false_r in Hf. discriminate.
Qed.

Lemma failed_request_leaves_queue_witness :
  let after := db (snd (processRequest Sim.gateway Sim.codes 3 5 Sim.confirmed1 (Num 10)
                          Sim.s_broke)) in
  (forall d, In d (findBacklog None after) -> _id d <> Some 1)
  /\ findBacklog None after = [Sim.confirmed2].
Proof.
  intros after. split; [| reflexivity].
  apply (failed_request_leaves_queue Sim.gateway Sim.codes 3 5 Sim.confirmed1 (Num 10)
           Sim.s_broke Sim.s_broke (Sim.error "INSUFFICIENT_FUNDS" "insufficient funds") None).
  - repeat constructor; cbn; intuition discriminate.
  - reflexivity.
  - reflexivity.
Defined.

(** ** A contract that cannot be loaded *)

(** [getContract] is called before the retry loop. When it raises, no
    submission is made and the error is not retried even if it carries a
    nonce-conflict code: [publishTransaction] raises it as it is, and the
    reconciler marks the request failed and keeps its cursor. *)
Theorem contract_error_fails_request {World : Type} (G : Gateway World) (ec : ErrorCode)
        (rc : Z) (fuel : nat) (request : DelegateRequestDoc) (cursor : jsnum)
        (s : PassState World) (e : JsError) (w : World) :
  status request = Status.confirmed ->
  getContract G (chain s) (contract_address (contract (context request))) = (inl e, w) ->
  publishTransaction G ec fuel request cursor s = (Throw e, {| db := db s; chain := w |})
  /\ processRequest G ec rc fuel request cursor s =
       (Ret cursor,
        {| db := findOneAndUpdate (_id request) (set_failed (failure_reason ec e)) (db s);
           chain := w |}).
Proof.
  intros Hst Hc.
  assert (publishTransaction G ec fuel request cursor s = (Throw e, {| db := db s; chain := w |}))
    as Hp.
  { unfold publishTransaction. apply bind_Throw. now apply await_inl. }
  split; [exact Hp |].
  now rewrite (processRequest_publish_raises G ec rc fuel request cursor s _ e Hst Hp).
Qed.

Lemma contract_error_fails_request_witness :
  let out := processRequest Sim.no_submit Sim.codes 3 0 Sim.confirmed1 (Num 10) Sim.s_conflict in
  fst out = Ret (Num 10)
  /\ chain (snd out) = chain Sim.s_conflict
  /\ map (fun d => (status d, reason d)) (db (snd out)) =
       [(Status.failed, Some "Transaction error when publishing: Error: no signer");
        (Status.confirmed, None)].
Proof.
  intros out.
  destruct (contract_error_fails_request Sim.no_submit Sim.codes 3 0 Sim.confirmed1 (Num 10)
              Sim.s_conflict (Sim.error "UNSUPPORTED_OPERATION" "no signer")
              (chain Sim.s_conflict) eq_refl eq_refl) as [_ H].
  subst out. rewrite H. repeat split.
Defined.
